(** * TakaichiRAG site crawler: a shallow embedding of [scraper/parser.py]
    and [scraper/crawler.py], with the properties of its specification.

    Python values are modelled as follows.
    - [str] is a sequence of Unicode code points: [list N].
    - a bs4 document is a tree of text nodes and tags ([node]).
    - the crawler object is a record of its attributes ([Crawler]) plus the
      effects it has had on the outside world: the requests it issued and
      the pauses it made ([trace]) and the files it wrote ([fs]).
    - library functions whose result is fixed by another package (the lxml
      parser, [urllib.parse], [re] on the URL patterns, the iteration order
      of a [set], the network, the clock) are fields of the class [World];
      every theorem holds for all worlds. *)

From Stdlib Require Import ZArith NArith QArith String Ascii DecimalString.
From stdpp Require Import gmap list relations.

Local Open Scope N_scope.

(** ** Python strings *)

Abbreviation pystr := (list N).

(** A string literal of the source, as its code points. *)
Definition py (s : String.string) : pystr :=
  map N_of_ascii (list_ascii_of_string s).

(** [Py_UNICODE_ISSPACE]: the one test behind [str.split], [str.strip] and
    the [\s] class of [re] on [str] patterns. *)
Definition isspace (c : N) : bool :=
  ((9 <=? c) && (c <=? 13)) || ((28 <=? c) && (c <=? 32))
  || (c =? 133) || (c =? 160) || (c =? 5760)
  || ((8192 <=? c) && (c <=? 8202))
  || (c =? 8232) || (c =? 8233) || (c =? 8239) || (c =? 8287)
  || (c =? 12288).

Definition SPACE : N := 32.
Definition NEWLINE : N := 10.

(** [re.sub(r'C+', repl, text)] for a character class [C]: every maximal run
    of characters of the class is replaced by [repl]. [in_run] tells that the
    previous character belonged to the class. *)
Fixpoint sub_runs (cls : N -> bool) (repl : pystr) (in_run : bool)
    (text : pystr) : pystr :=
  match text with
  | [] => []
  | c :: rest =>
      if cls c then
        if in_run then sub_runs cls repl true rest
        else repl ++ sub_runs cls repl true rest
      else c :: sub_runs cls repl false rest
  end.

Definition re_sub_plus (cls : N -> bool) (repl text : pystr) : pystr :=
  sub_runs cls repl false text.

Fixpoint lstrip (text : pystr) : pystr :=
  match text with
  | [] => []
  | c :: rest => if isspace c then lstrip rest else text
  end.

Definition rstrip (text : pystr) : pystr := rev (lstrip (rev text)).

(** [text.strip()] *)
Definition strip (text : pystr) : pystr := rstrip (lstrip text).

(** [text.split()]: the maximal runs of non-whitespace characters. [word] is
    the run being read. *)
Fixpoint split_go (word text : pystr) : list pystr :=
  match text with
  | [] => match word with [] => [] | _ => [word] end
  | c :: rest =>
      if isspace c then
        match word with
        | [] => split_go [] rest
        | _ => word :: split_go [] rest
        end
      else split_go (word ++ [c]) rest
  end.

Definition split (text : pystr) : list pystr := split_go [] text.

(** [sep.join(parts)] *)
Fixpoint join (sep : pystr) (parts : list pystr) : pystr :=
  match parts with
  | [] => []
  | [p] => p
  | p :: ps => p ++ sep ++ join sep ps
  end.

Fixpoint startswith (text prefix : pystr) : bool :=
  match prefix, text with
  | [], _ => true
  | p :: ps, c :: cs => (c =? p) && startswith cs ps
  | _ :: _, [] => false
  end.

Definition endswith (text suffix : pystr) : bool :=
  startswith (rev text) (rev suffix).

(** [needle in text] *)
Fixpoint contains (text needle : pystr) : bool :=
  startswith text needle
  || match text with
     | [] => false
     | _ :: rest => contains rest needle
     end.

Definition pystr_eqb (a b : pystr) : bool := bool_decide (a = b).

(** [str(n)] for an [int]. *)
Definition str_of_int (n : Z) : pystr :=
  py (NilZero.string_of_int (Z.to_int n)).

(** The text with every whitespace character removed. *)
Definition remove_whitespace (text : pystr) : pystr :=
  List.filter (fun c => negb (isspace c)) text.

(** [HTMLParser._clean_text] *)
Definition _clean_text (text : pystr) : pystr :=
  match text with
  | [] => []
  | _ =>
      let text := re_sub_plus isspace [SPACE] text in
      let text := strip text in
      let text := re_sub_plus (N.eqb NEWLINE) [NEWLINE] text in
      text
  end.

(** The character count of [extract_content]:
    [len(''.join(main_content.split())) if main_content else 0]. *)
Definition char_count (main_content : pystr) : nat :=
  match main_content with
  | [] => 0%nat
  | _ => length (join [] (split main_content))
  end.

(** ** Documents

    What [BeautifulSoup(html, 'lxml')] builds: text nodes and tags with
    their attributes. The document itself is the tag named [[document]]. *)

#[warnings="-register-all"] Inductive node : Type :=
  | Text (s : pystr)
  | Tag (name : pystr) (attrs : list (pystr * pystr)) (children : list node).

Definition children (n : node) : list node :=
  match n with
  | Text _ => []
  | Tag _ _ cs => cs
  end.

(** [tag.get(key)] *)
Fixpoint get_attr (key : pystr) (attrs : list (pystr * pystr)) : option pystr :=
  match attrs with
  | [] => None
  | (k, v) :: rest => if pystr_eqb k key then Some v else get_attr key rest
  end.

Definition node_get (key : pystr) (n : node) : option pystr :=
  match n with
  | Text _ => None
  | Tag _ attrs _ => get_attr key attrs
  end.

(** Truth value of an optional string: [None] and [''] are false. *)
Definition truthy (o : option pystr) : bool :=
  match o with
  | Some (_ :: _) => true
  | _ => false
  end.

(** The node and everything below it, in document order. *)
Fixpoint subtree (n : node) : list node :=
  match n with
  | Text _ => [n]
  | Tag _ _ cs => n :: flat_map subtree cs
  end.

Definition descendants (n : node) : list node := flat_map subtree (children n).

Definition has_name (name : pystr) (n : node) : bool :=
  match n with
  | Text _ => false
  | Tag t _ _ => pystr_eqb t name
  end.

(** [soup.find_all(pred)] and [soup.find(pred)] *)
Definition find_all (pred : node -> bool) (soup : node) : list node :=
  List.filter pred (descendants soup).

Definition find (pred : node -> bool) (soup : node) : option node :=
  head (find_all pred soup).

(** The strings below a node, in document order. *)
Fixpoint strings (n : node) : list pystr :=
  match n with
  | Text s => [s]
  | Tag _ _ cs => flat_map strings cs
  end.

Definition nonempty (s : pystr) : bool :=
  match s with
  | [] => false
  | _ => true
  end.

(** [node.get_text(separator, strip)] *)
Definition get_text (separator : pystr) (strip_each : bool) (n : node) : pystr :=
  join separator
    (if strip_each then List.filter nonempty (map strip (strings n))
     else strings n).

(** [for element in soup(names): element.decompose()] *)
Fixpoint decompose (names : list pystr) (n : node) : node :=
  match n with
  | Text s => Text s
  | Tag t a cs =>
      Tag t a
        ((fix each (cs : list node) : list node :=
            match cs with
            | [] => []
            | c :: cs' =>
                if existsb (fun nm => has_name nm c) names then each cs'
                else decompose names c :: each cs'
            end) cs)
  end.

(** *** CSS selectors of [select_one]

    Only what the source uses: compound selectors made of a tag name, an id,
    a class and an attribute that must be present, chained by the descendant
    combinator. *)

Record compound : Type := Compound {
  sel_tag : option pystr;
  sel_id : option pystr;
  sel_class : option pystr;
  sel_attr : option pystr
}.

Definition opt_test {A} (o : option A) (test : A -> bool) : bool :=
  match o with
  | None => true
  | Some x => test x
  end.

Definition matches_compound (c : compound) (name : pystr)
    (attrs : list (pystr * pystr)) : bool :=
  opt_test (sel_tag c) (pystr_eqb name)
  && opt_test (sel_id c) (fun i =>
       match get_attr (py "id") attrs with
       | Some v => pystr_eqb v i
       | None => false
       end)
  && opt_test (sel_class c) (fun k =>
       match get_attr (py "class") attrs with
       | Some v => existsb (pystr_eqb k) (split v)
       | None => false
       end)
  && opt_test (sel_attr c) (fun a =>
       match get_attr a attrs with
       | Some _ => true
       | None => false
       end).

(** [outer] are the compounds still to be found among the ancestors, nearest
    compound first; [ancs] are the ancestors, nearest first. *)
Fixpoint match_ancestors (outer : list compound)
    (ancs : list (pystr * list (pystr * pystr))) : bool :=
  match outer with
  | [] => true
  | c :: outer' =>
      (fix up (ancs : list (pystr * list (pystr * pystr))) : bool :=
         match ancs with
         | [] => false
         | (t, a) :: ancs' =>
             (matches_compound c t a && match_ancestors outer' ancs') || up ancs'
         end) ancs
  end.

Fixpoint select_go (sel_rev : list compound)
    (ancs : list (pystr * list (pystr * pystr))) (n : node) : list node :=
  match n with
  | Text _ => []
  | Tag t a cs =>
      (match sel_rev with
       | [] => []
       | c :: outer =>
           if matches_compound c t a && match_ancestors outer ancs then [n] else []
       end)
      ++ flat_map (select_go sel_rev ((t, a) :: ancs)) cs
  end.

(** [soup.select_one(selector)] *)
Definition select_one (selector : list compound) (soup : node) : option node :=
  head (flat_map (select_go (rev selector) []) (children soup)).

Definition by_tag (t : String.string) : compound :=
  Compound (Some (py t)) None None None.
Definition by_id (i : String.string) : compound :=
  Compound None (Some (py i)) None None.
Definition by_class (k : String.string) : compound :=
  Compound None None (Some (py k)) None.
Definition by_tag_class (t k : String.string) : compound :=
  Compound (Some (py t)) None (Some (py k)) None.
Definition by_tag_attr (t a : String.string) : compound :=
  Compound (Some (py t)) None None (Some (py a)).

(** ** The world outside the repository *)

(** Python exceptions. [KeyboardInterrupt] and [SystemExit] derive from
    [BaseException] only; the others are instances of [Exception]. *)
Inductive exn : Type :=
  | ConnectionError
  | Timeout
  | RetryError
  | HTTPError (status : Z)
  | KeyError (key : pystr)
  | KeyboardInterrupt
  | SystemExit.

Definition is_Exception (e : exn) : bool :=
  match e with
  | KeyboardInterrupt | SystemExit => false
  | _ => true
  end.

(** A computation that returns or raises. *)
Inductive outcome (A : Type) : Type :=
  | Return (a : A)
  | Raise (e : exn).
Arguments Return {A} a.
Arguments Raise {A} e.

Definition bind {A B} (o : outcome A) (k : A -> outcome B) : outcome B :=
  match o with
  | Return a => k a
  | Raise e => Raise e
  end.

(** [try: body except Exception as e: handler] *)
Definition try_except_Exception {A} (body : outcome A) (handler : exn -> outcome A)
    : outcome A :=
  match body with
  | Return a => Return a
  | Raise e => if is_Exception e then handler e else Raise e
  end.

(** A [requests.Response]: its status, the encoding guessed from the body,
    and the body decoded under a given encoding. *)
Record Response : Type := {
  status_code : Z;
  apparent_encoding : option pystr;
  text : pystr -> pystr
}.

(** [response.raise_for_status()] of [requests]: a 4xx or 5xx status raises
    [HTTPError]. *)
Definition raise_for_status (response : Response) : outcome unit :=
  if ((400 <=? status_code response) && (status_code response <? 600))%Z
  then Raise (HTTPError (status_code response))
  else Return tt.

Class World : Type := {
  (** [BeautifulSoup(html, 'lxml')] *)
  BeautifulSoup : pystr -> node;
  (** [urllib.parse.urljoin(base, url)] *)
  urljoin : pystr -> pystr -> pystr;
  (** [urllib.parse.urlparse(url).netloc] *)
  netloc : pystr -> pystr;
  (** [re.compile(pattern, re.I if ignorecase else 0).search(text)] found a
      match *)
  re_search : pystr -> bool -> pystr -> bool;
  (** the class [\d] of [re] on [str]: Unicode decimal digits *)
  isdecimal : N -> bool;
  (** [text.lower()] *)
  lower : pystr -> pystr;
  (** [list(set(items))]: the distinct items, in the order the interpreter
      happens to enumerate them *)
  list_set : list pystr -> list pystr;
  list_set_perm : forall items, list_set items ≡ₚ remove_dups items;
  (** [directory / name] of [pathlib] *)
  path_div : pystr -> pystr -> pystr;
  (** [session.get(url, timeout=...)], retries of the mounted adapter
      included; the first argument counts the effects the crawler has had so
      far, so the same URL may answer differently when asked again. The run
      is not interrupted from outside: what is raised is an [Exception]. *)
  session_get : nat -> pystr -> outcome Response;
  session_get_Exception :
    forall n u e, session_get n u = Raise e -> is_Exception e = true;
  (** [int(time.time())], by the number of effects so far *)
  time_time : nat -> Z
}.

(** ** [scraper/parser.py]: class [HTMLParser] *)

Record PageRecord : Type := {
  url : pystr;
  title : pystr;
  description : pystr;
  content : pystr;
  word_count : nat;
  publish_date : option pystr;
  category : option pystr;
  depth : option nat
}.

Definition set_category (c : pystr) (r : PageRecord) : PageRecord :=
  {| url := url r; title := title r; description := description r;
     content := content r; word_count := word_count r;
     publish_date := publish_date r; category := Some c; depth := depth r |}.

Definition set_depth (d : nat) (r : PageRecord) : PageRecord :=
  {| url := url r; title := title r; description := description r;
     content := content r; word_count := word_count r;
     publish_date := publish_date r; category := category r; depth := Some d |}.

Definition NEN : N := 24180.   (* U+5E74 *)
Definition GATSU : N := 26376. (* U+6708 *)
Definition NICHI : N := 26085. (* U+65E5 *)
Definition HYPHEN : N := 45.

Section Parser.
Context `{World}.

(** [_extract_title] *)
Definition _extract_title (soup : node) : pystr :=
  match find (has_name (py "title")) soup with
  | Some title_tag => _clean_text (get_text [] false title_tag)
  | None =>
      match find (has_name (py "h1")) soup with
      | Some h1_tag => _clean_text (get_text [] false h1_tag)
      | None => []
      end
  end.

Definition attr_is (key value : pystr) (n : node) : bool :=
  match node_get key n with
  | Some v => pystr_eqb v value
  | None => false
  end.

Definition meta_content (key value : pystr) (soup : node) : option pystr :=
  match find (fun n => has_name (py "meta") n && attr_is key value n) soup with
  | Some meta => node_get (py "content") meta
  | None => None
  end.

(** [_extract_description] *)
Definition _extract_description (soup : node) : pystr :=
  let meta_desc := meta_content (py "name") (py "description") soup in
  if truthy meta_desc then _clean_text (default [] meta_desc)
  else
    let og_desc := meta_content (py "property") (py "og:description") soup in
    if truthy og_desc then _clean_text (default [] og_desc)
    else [].

(** A match of [(\d{4})年(\d{2})月(\d{2})日] at the start of [t], with its
    three groups. *)
Definition match_date_here (t : pystr) : option (pystr * pystr * pystr) :=
  match t with
  | y1 :: y2 :: y3 :: y4 :: n :: m1 :: m2 :: g :: d1 :: d2 :: h :: _ =>
      if forallb isdecimal [y1; y2; y3; y4; m1; m2; d1; d2]
         && (n =? NEN) && (g =? GATSU) && (h =? NICHI)
      then Some ([y1; y2; y3; y4], [m1; m2], [d1; d2])
      else None
  | _ => None
  end.

(** [re.search(r'(\d{4})年(\d{2})月(\d{2})日', t)] *)
Fixpoint search_date (t : pystr) : option (pystr * pystr * pystr) :=
  match match_date_here t with
  | Some groups => Some groups
  | None =>
      match t with
      | [] => None
      | _ :: rest => search_date rest
      end
  end.

(** ['#contents div.container div article div.articleTit p time'] *)
Definition article_title_time : list compound :=
  [by_id "contents"; by_tag_class "div" "container"; by_tag "div";
   by_tag "article"; by_tag_class "div" "articleTit"; by_tag "p";
   by_tag "time"].

(** ['article time'], ['.articleTit time'], ['time[datetime]'],
    ['.date time'], ['.publish-date time'] *)
Definition alternative_selectors : list (list compound) :=
  [ [by_tag "article"; by_tag "time"];
    [by_class "articleTit"; by_tag "time"];
    [by_tag_attr "time" "datetime"];
    [by_class "date"; by_tag "time"];
    [by_class "publish-date"; by_tag "time"] ].

(** The loop over [alternative_selectors]. *)
Fixpoint try_alternatives (selectors : list (list compound)) (soup : node)
    : option pystr :=
  match selectors with
  | [] => None
  | selector :: rest =>
      match select_one selector soup with
      | Some time_tag =>
          let datetime_attr := node_get (py "datetime") time_tag in
          if truthy datetime_attr then datetime_attr
          else try_alternatives rest soup
      | None => try_alternatives rest soup
      end
  end.

(** [_extract_publish_date] *)
Definition _extract_publish_date (soup : node) : option pystr :=
  let fallback := try_alternatives alternative_selectors soup in
  match select_one article_title_time soup with
  | Some time_tag =>
      let datetime_attr := node_get (py "datetime") time_tag in
      if truthy datetime_attr then datetime_attr
      else
        let time_text := get_text [] true time_tag in
        if nonempty time_text then
          match search_date time_text with
          | Some (year, month, day) =>
              Some (year ++ [HYPHEN] ++ month ++ [HYPHEN] ++ day)
          | None => fallback
          end
        else fallback
  | None => fallback
  end.

Definition content_pattern : pystr := py "content|main|body|article".

(** How bs4 matches a compiled pattern against the [class] attribute: any
    of its values, or all of them joined by a space. *)
Definition class_search (pattern : pystr) (n : node) : bool :=
  match node_get (py "class") n with
  | Some v =>
      existsb (re_search pattern true) (split v)
      || re_search pattern true (join [SPACE] (split v))
  | None => false
  end.

Definition id_search (pattern : pystr) (n : node) : bool :=
  match node_get (py "id") n with
  | Some v => re_search pattern true v
  | None => false
  end.

Definition content_selectors : list (node -> bool) :=
  [ has_name (py "main");
    has_name (py "article");
    (fun n => has_name (py "div") n && class_search content_pattern n);
    (fun n => has_name (py "div") n && id_search content_pattern n) ].

(** [_extract_main_content] *)
Definition _extract_main_content (soup : node) : pystr :=
  (fix each (selectors : list (node -> bool)) : pystr :=
     match selectors with
     | [] => []
     | selector :: rest =>
         match find selector soup with
         | Some content_area => get_text [NEWLINE] true content_area
         | None => each rest
         end
     end) content_selectors.

(** [_extract_all_text] *)
Definition _extract_all_text (soup : node) : pystr :=
  match find (has_name (py "body")) soup with
  | Some body => get_text [NEWLINE] true body
  | None => get_text [NEWLINE] true soup
  end.

(** [extract_content]; the caller adds [category] (and [depth]). *)
Definition extract_content (html url : pystr) : PageRecord :=
  let soup := BeautifulSoup html in
  let soup := decompose [py "script"; py "style"; py "noscript"; py "iframe"] soup in
  let title := _extract_title soup in
  let description := _extract_description soup in
  let publish_date := _extract_publish_date soup in
  let main_content := _extract_main_content soup in
  let main_content :=
    if nonempty main_content then main_content else _extract_all_text soup in
  let main_content := _clean_text main_content in
  {| url := url; title := title; description := description;
     content := main_content; word_count := char_count main_content;
     publish_date := publish_date; category := None; depth := None |}.

(** [_is_same_domain] *)
Definition _is_same_domain (url base_url : pystr) : bool :=
  pystr_eqb (netloc url) (netloc base_url) || pystr_eqb (netloc url) [].

(** The [href] of every [a] tag that has one, in document order. *)
Definition anchor_hrefs (soup : node) : list pystr :=
  omap (node_get (py "href")) (find_all (has_name (py "a")) soup).

(** The test of [extract_links] that skips an [href]. *)
Definition skipped_href (href : pystr) : bool :=
  negb (nonempty href) || startswith href (py "#")
  || startswith href (py "javascript:").

(** The list [links] built by the loop of [extract_links]. *)
Fixpoint collect_links (base_url current_url : pystr) (hrefs : list pystr)
    : list pystr :=
  match hrefs with
  | [] => []
  | href :: rest =>
      if skipped_href href then collect_links base_url current_url rest
      else
        let absolute_url := urljoin current_url href in
        if _is_same_domain absolute_url base_url
        then absolute_url :: collect_links base_url current_url rest
        else collect_links base_url current_url rest
  end.

(** [extract_links] of the parser made for [base_url] *)
Definition extract_links (base_url html current_url : pystr) : list pystr :=
  let soup := BeautifulSoup html in
  list_set (collect_links base_url current_url (anchor_hrefs soup)).

(** [extract_subpage_links] *)
Definition extract_subpage_links (base_url html current_url : pystr)
    (pattern : option pystr) : list pystr :=
  let all_links := extract_links base_url html current_url in
  match pattern with
  | Some p =>
      if nonempty p then List.filter (re_search p false) all_links
      else all_links
  | None => all_links
  end.

End Parser.

(** ** [scraper/crawler.py]: class [WebCrawler] *)

(** [response.apparent_encoding or 'utf-8'] *)
Definition encoding_of (response : Response) : pystr :=
  if truthy (apparent_encoding response)
  then default [] (apparent_encoding response)
  else py "utf-8".

(** [_fetch_page], given what [self.session.get] does. *)
Definition _fetch_page (session_get : pystr -> outcome Response) (url : pystr)
    : outcome (option pystr) :=
  try_except_Exception
    (bind (session_get url) (fun response =>
     bind (raise_for_status response) (fun _ =>
       Return (Some (text response (encoding_of response))))))
    (fun e => Return None).

(** The value of a call that returns. *)
Definition returned {A} (o : outcome (option A)) : option A :=
  match o with
  | Return r => r
  | Raise _ => None
  end.

(** The configuration dictionary ([SCRAPER_CONFIG] in [config.py]). The
    header profile has no part in what follows. *)
Record Config : Type := {
  base_url : pystr;
  target_pages : list (pystr * pystr);
  timeout : Z;
  delay_between_requests : Q
}.

(** What the crawler does to the outside world. *)
Inductive effect : Type :=
  | Fetch (url : pystr)
  | Sleep (seconds : Q)
  | Write (path : pystr) (data : list PageRecord).

(** The attributes of a [WebCrawler], with the effects it has had, oldest
    first, and the files it has written. *)
Record Crawler : Type := {
  visited_urls : gset pystr;
  scraped_data : list PageRecord;
  timestamp : option Z;
  saved_files : list pystr;
  trace : list effect;
  fs : gmap pystr (list PageRecord)
}.

(** [WebCrawler.__init__] *)
Definition WebCrawler : Crawler :=
  {| visited_urls := ∅; scraped_data := []; timestamp := None;
     saved_files := []; trace := []; fs := ∅ |}.

Definition log (e : effect) (self : Crawler) : Crawler :=
  {| visited_urls := visited_urls self; scraped_data := scraped_data self;
     timestamp := timestamp self; saved_files := saved_files self;
     trace := trace self ++ [e]; fs := fs self |}.

Definition add_visited (u : pystr) (self : Crawler) : Crawler :=
  {| visited_urls := {[u]} ∪ visited_urls self; scraped_data := scraped_data self;
     timestamp := timestamp self; saved_files := saved_files self;
     trace := trace self; fs := fs self |}.

Definition set_scraped_data (data : list PageRecord) (self : Crawler) : Crawler :=
  {| visited_urls := visited_urls self; scraped_data := data;
     timestamp := timestamp self; saved_files := saved_files self;
     trace := trace self; fs := fs self |}.

Definition set_timestamp (t : Z) (self : Crawler) : Crawler :=
  {| visited_urls := visited_urls self; scraped_data := scraped_data self;
     timestamp := Some t; saved_files := saved_files self;
     trace := trace self; fs := fs self |}.

(** [json.dump(data, open(path, 'w'))] followed by
    [self.saved_files.append(path)] *)
Definition write_file (path : pystr) (data : list PageRecord) (self : Crawler)
    : Crawler :=
  {| visited_urls := visited_urls self; scraped_data := scraped_data self;
     timestamp := timestamp self; saved_files := saved_files self ++ [path];
     trace := trace self ++ [Write path data]; fs := <[path := data]> (fs self) |}.

(** [for x in items: body]; the body sees the crawler as the previous
    iteration left it. *)
Fixpoint for_each {A S : Type} (items : list A) (body : A -> S -> S) (s : S) : S :=
  match items with
  | [] => s
  | x :: rest => for_each rest body (body x s)
  end.

Definition has_category (c : pystr) (item : PageRecord) : bool :=
  bool_decide (category item = Some c).

Section Crawl.
Context `{World} (config : Config) (data_dir : pystr).

(** A call of [self._fetch_page(url)]: its value and the crawler after. *)
Definition fetch (url : pystr) (self : Crawler) : option pystr * Crawler :=
  (returned (_fetch_page (session_get (length (trace self))) url),
   log (Fetch url) self).

(** [time.sleep(self.config['delay_between_requests'])] *)
Definition sleep (self : Crawler) : Crawler :=
  log (Sleep (delay_between_requests config)) self.

(** [_crawl_single_page] *)
Definition _crawl_single_page (url category : pystr) (self : Crawler) : Crawler :=
  if bool_decide (url ∈ visited_urls self) then self
  else
    let self := add_visited url self in
    let '(html, self) := fetch url self in
    if negb (truthy html) then self
    else
      let content_data := extract_content (default [] html) url in
      let content_data := set_category category content_data in
      if (100 <? word_count content_data)%nat
      then set_scraped_data (scraped_data self ++ [content_data]) self
      else self.

Definition media_extensions : list pystr :=
  [py ".jpg"; py ".jpeg"; py ".png"; py ".gif"; py ".pdf"; py ".mp4"; py ".mp3"].

(** [_should_follow_link] *)
Definition _should_follow_link (link category : pystr) : bool :=
  if negb (startswith link (base_url config)) then false
  else if existsb (fun ext => endswith (lower link) ext) media_extensions then false
  else if pystr_eqb category (py "column") then contains (lower link) (py "column")
  else if pystr_eqb category (py "kaiken") then contains (lower link) (py "kaiken")
  else if pystr_eqb category (py "idea") then
    contains (lower link) (py "idea") || contains (lower link) (py "policy")
  else if pystr_eqb category (py "posture") then
    contains (lower link) (py "posture") || contains (lower link) (py "stance")
  else if pystr_eqb category (py "results") then
    contains (lower link) (py "result") || contains (lower link) (py "achievement")
  else true.

(** [_crawl_page_and_subpages] at a depth [current_depth <= max_depth],
    by recursion on [budget = max_depth - current_depth]. *)
Fixpoint crawl_below (budget : nat) (url category : pystr) (current_depth : nat)
    (self : Crawler) : Crawler :=
  if bool_decide (url ∈ visited_urls self) then self
  else
    let self := add_visited url self in
    let '(html, self) := fetch url self in
    if negb (truthy html) then self
    else
      let content_data := extract_content (default [] html) url in
      let content_data := set_category category content_data in
      let content_data := set_depth current_depth content_data in
      let self :=
        if (100 <? word_count content_data)%nat
        then set_scraped_data (scraped_data self ++ [content_data]) self
        else self in
      match budget with
      | O => self
      | S budget' =>
          let links := extract_links (base_url config) (default [] html) url in
          for_each links (fun link self =>
            if _should_follow_link link category
            then sleep (crawl_below budget' link category (S current_depth) self)
            else self) self
      end.

(** [_crawl_page_and_subpages] *)
Definition _crawl_page_and_subpages (url category : pystr)
    (max_depth current_depth : nat) (self : Crawler) : Crawler :=
  if (max_depth <? current_depth)%nat then self
  else crawl_below (max_depth - current_depth) url category current_depth self.

(** The loops [for link in links: if link not in self.visited_urls: ...]
    that crawl result pages and detail pages. *)
Definition crawl_links (links : list pystr) (category : pystr) (self : Crawler)
    : Crawler :=
  for_each links (fun link self =>
    if bool_decide (link ∈ visited_urls self) then self
    else sleep (_crawl_single_page link category self)) self.

(** [_crawl_results_pages] *)
Definition _crawl_results_pages (url : pystr) (self : Crawler) : Crawler :=
  let self := _crawl_single_page url (py "results") self in
  let '(html, self) := fetch url self in
  if negb (truthy html) then self
  else
    let results_links :=
      extract_subpage_links (base_url config) (default [] html) url
        (Some (py "results_[^/]+\.html")) in
    crawl_links results_links (py "results") self.

(** The loop over [list_links] of [_crawl_kaiken_pages] and
    [_crawl_column_pages] (the same text in both): it extends
    [all_detail_links]. *)
Definition process_list_pages (list_links : list pystr)
    (category detail_pattern : pystr) (all_detail_links : list pystr)
    (self : Crawler) : list pystr * Crawler :=
  for_each list_links (fun list_url '(all_detail_links, self) =>
    if bool_decide (list_url ∈ visited_urls self) then (all_detail_links, self)
    else
      let self := _crawl_single_page list_url category self in
      let '(list_html, self) := fetch list_url self in
      if truthy list_html then
        let detail_links :=
          extract_subpage_links (base_url config) (default [] list_html)
            list_url (Some detail_pattern) in
        (all_detail_links ++ detail_links, sleep self)
      else (all_detail_links, self)) (all_detail_links, self).

(** [_crawl_column_pages] *)
Definition _crawl_column_pages (url : pystr) (self : Crawler) : Crawler :=
  let self := _crawl_single_page url (py "column") self in
  let '(html, self) := fetch url self in
  if negb (truthy html) then self
  else
    let list_links :=
      extract_subpage_links (base_url config) (default [] html) url
        (Some (py "column_list\d+\.html")) in
    let all_detail_links :=
      extract_subpage_links (base_url config) (default [] html) url
        (Some (py "column_detail\d+\.html")) in
    let '(all_detail_links, self) :=
      process_list_pages list_links (py "column") (py "column_detail\d+\.html")
        all_detail_links self in
    let all_detail_links := list_set all_detail_links in
    crawl_links all_detail_links (py "column") self.

(** [_crawl_kaiken_pages] *)
Definition _crawl_kaiken_pages (url : pystr) (self : Crawler) : Crawler :=
  let self := _crawl_single_page url (py "kaiken") self in
  let '(html, self) := fetch url self in
  if negb (truthy html) then self
  else
    let list_links :=
      extract_subpage_links (base_url config) (default [] html) url
        (Some (py "kaiken_list\d+\.html")) in
    let '(all_detail_links, self) :=
      process_list_pages list_links (py "kaiken") (py "kaiken_detail\d+\.html")
        [] self in
    let all_detail_links := list_set all_detail_links in
    crawl_links all_detail_links (py "kaiken") self.

(** [self.data_dir / f"{category}_{self.timestamp}.json"] *)
Definition category_file_name (category : pystr) (timestamp : Z) : pystr :=
  path_div data_dir (category ++ py "_" ++ str_of_int timestamp ++ py ".json").

(** [_save_category_data] *)
Definition _save_category_data (category : pystr) (self : Crawler)
    : option pystr * Crawler :=
  let category_data := List.filter (has_category category) (scraped_data self) in
  match category_data with
  | [] => (None, self)
  | _ =>
      let self :=
        match timestamp self with
        | None => set_timestamp (time_time (length (trace self))) self
        | Some _ => self
        end in
      let category_file :=
        category_file_name category (default 0%Z (timestamp self)) in
      let self := write_file category_file category_data self in
      let self :=
        set_scraped_data
          (List.filter (fun item => negb (has_category category item))
             (scraped_data self)) self in
      (Some category_file, self)
  end.

(** The strategy chosen by the name of the category. *)
Definition crawl_category (page_name url : pystr) (self : Crawler) : Crawler :=
  if pystr_eqb page_name (py "idea") || pystr_eqb page_name (py "posture")
  then _crawl_single_page url page_name self
  else if pystr_eqb page_name (py "results") then _crawl_results_pages url self
  else if pystr_eqb page_name (py "kaiken") then _crawl_kaiken_pages url self
  else if pystr_eqb page_name (py "column") then _crawl_column_pages url self
  else _crawl_page_and_subpages url page_name 2 0 self.

(** One iteration of the loop of [crawl_all_pages]. [total_pages] counts
    the records read back from the file just written. *)
Definition crawl_target (target : pystr * pystr) (state : nat * Crawler)
    : nat * Crawler :=
  let '(page_name, page_path) := target in
  let '(total_pages, self) := state in
  let url := urljoin (base_url config) page_path in
  let self := crawl_category page_name url self in
  let '(saved_file, self) := _save_category_data page_name self in
  let total_pages :=
    match saved_file with
    | Some path => (total_pages + length (default [] (fs self !! path)))%nat
    | None => total_pages
    end in
  (total_pages, sleep self).

(** [crawl_all_pages]: the number of pages it reports and the crawler it
    leaves; its return value is [scraped_data] of that crawler. *)
Definition crawl_all_pages (self : Crawler) : nat * Crawler :=
  let self :=
    match timestamp self with
    | None => set_timestamp (time_time (length (trace self))) self
    | Some _ => self
    end in
  for_each (target_pages config) crawl_target (0%nat, self).

End Crawl.

(** ** Sample inputs *)

(** A session whose every request times out. *)
Definition session_timing_out : pystr -> outcome Response := fun _ => Raise Timeout.

Definition document (body : list node) : node :=
  Tag (py "[document]") [] [Tag (py "html") [] [Tag (py "body") [] body]].

(** An article of the site: the [time] tag sits in the article-title region. *)
Definition article_page (time_attrs : list (pystr * pystr)) (time_text : pystr)
    : node :=
  document
    [Tag (py "div") [(py "id", py "contents")]
      [Tag (py "div") [(py "class", py "container")]
        [Tag (py "div") []
          [Tag (py "article") []
            [Tag (py "div") [(py "class", py "articleTit")]
              [Tag (py "p") [] [Tag (py "time") time_attrs [Text time_text]]]]]]]].

(** 2014年06月05日 *)
Definition date_text : pystr :=
  py "2014" ++ [NEN] ++ py "06" ++ [GATSU] ++ py "05" ++ [NICHI].

(** *** A small site

    A world to run the crawler in: six pages of a site shaped like the real
    one, a parser that knows their markup, and plain versions of the library
    functions that agree with the real ones on the URLs and patterns used
    here. *)

Inductive item : Type :=
  | Lit (c : N)
  | Plus (cls : N -> bool).

Definition ascii_digit (c : N) : bool := (48 <=? c) && (c <=? 57).
Definition not_slash (c : N) : bool := negb (c =? 47).

(** The alternatives of a pattern made of literals, [\.], [\d+], [[^/]+]
    and [|]. *)
Fixpoint parse_pattern (p : pystr) (cur : list item) : list (list item) :=
  match p with
  | [] => [rev cur]
  | 124 :: r => rev cur :: parse_pattern r []
  | 92 :: 100 :: 43 :: r => parse_pattern r (Plus ascii_digit :: cur)
  | 92 :: 46 :: r => parse_pattern r (Lit 46 :: cur)
  | 91 :: 94 :: 47 :: 93 :: 43 :: r => parse_pattern r (Plus not_slash :: cur)
  | c :: r => parse_pattern r (Lit c :: cur)
  end.

Fixpoint match_here (text : pystr) (items : list item) : bool :=
  match items, text with
  | [], _ => true
  | _ :: _, [] => false
  | Lit a :: rest, c :: t => (c =? a) && match_here t rest
  | Plus cls :: rest, c :: t => cls c && (match_here t rest || match_here t items)
  end.

Fixpoint search_items (text : pystr) (items : list item) : bool :=
  match_here text items
  || match text with
     | [] => false
     | _ :: t => search_items t items
     end.

Definition ascii_lower_char (c : N) : N :=
  if (65 <=? c) && (c <=? 90) then c + 32 else c.

Definition site_lower (text : pystr) : pystr := map ascii_lower_char text.

Definition site_re_search (pattern : pystr) (ignorecase : bool) (text : pystr)
    : bool :=
  existsb (search_items (if ignorecase then site_lower text else text))
    (parse_pattern pattern []).

Definition site_root : pystr := py "https://www.sanae.gr.jp".

Definition site_urljoin (base href : pystr) : pystr :=
  if contains href (py "://") then href else site_root ++ py "/" ++ href.

Fixpoint after_slashes (u : pystr) : option pystr :=
  match u with
  | 47 :: 47 :: rest => Some rest
  | _ :: rest => after_slashes rest
  | [] => None
  end.

Fixpoint until_slash (u : pystr) : pystr :=
  match u with
  | [] => []
  | c :: rest => if c =? 47 then [] else c :: until_slash rest
  end.

Definition site_netloc (u : pystr) : pystr :=
  match after_slashes u with
  | Some rest => until_slash rest
  | None => []
  end.

Definition anchor (href : String.string) : node :=
  Tag (py "a") [(py "href", py href)] [Text (py href)].

(** A page with a title, [chars] hiragana letters of text and some links. *)
Definition site_page (name : String.string) (chars : nat) (links : list node)
    : node :=
  Tag (py "[document]") []
    [Tag (py "html") []
      [Tag (py "head") [] [Tag (py "title") [] [Text (py name)]];
       Tag (py "body") []
         [Tag (py "main") [] [Tag (py "p") [] [Text (repeat 12354 chars)]];
          Tag (py "ul") [] links]]].

(** The pages: path, markup as served, and the document the parser makes of
    it. *)
Definition site_pages : list (pystr * (pystr * node)) :=
  [ (py "idea.html",
      (py "<title>idea</title>", site_page "idea" 150 []));
    (py "posture.html",
      (py "<title>posture</title>", site_page "posture" 40 []));
    (py "results.html",
      (py "<title>results</title>",
       site_page "results" 120 [anchor "results_japan7.html"; anchor "#top"]));
    (py "results_japan7.html",
      (py "<title>results_japan7</title>", site_page "results_japan7" 130 []));
    (py "column.html",
      (py "<title>column</title>",
       site_page "column" 120
         [anchor "column_list1.html"; anchor "column_detail1.html"]));
    (py "column_list1.html",
      (py "<title>column_list1</title>",
       site_page "column_list1" 110 [anchor "column_detail1.html"]));
    (py "column_detail1.html",
      (py "<title>column_detail1</title>", site_page "column_detail1" 200 [])) ].

Definition site_url (path : String.string) : pystr :=
  site_root ++ py "/" ++ py path.

Definition site_response (html : pystr) : Response :=
  {| status_code := 200; apparent_encoding := Some (py "utf-8");
     text := fun _ => html |}.

Definition not_found : Response :=
  {| status_code := 404; apparent_encoding := None; text := fun _ => py "Not Found" |}.

Definition site_get (n : nat) (u : pystr) : outcome Response :=
  match List.find (fun p => pystr_eqb (site_root ++ py "/" ++ fst p) u) site_pages with
  | Some (_, (html, _)) => Return (site_response html)
  | None => Return not_found
  end.

Definition site_parse (html : pystr) : node :=
  match List.find (fun p => pystr_eqb (fst (snd p)) html) site_pages with
  | Some (_, (_, soup)) => soup
  | None => Tag (py "[document]") [] []
  end.

Lemma site_get_Exception n u e : site_get n u = Raise e -> is_Exception e = true.
Proof.
  unfold site_get. destruct (List.find _ _) as [[? [? ?]]|]; discriminate.
Defined.

#[local] Instance site : World := {
  BeautifulSoup := site_parse;
  urljoin := site_urljoin;
  netloc := site_netloc;
  re_search := site_re_search;
  isdecimal := ascii_digit;
  lower := site_lower;
  list_set := remove_dups;
  list_set_perm := fun items => Permutation_refl (remove_dups items);
  path_div := fun directory name => directory ++ py "/" ++ name;
  session_get := site_get;
  session_get_Exception := site_get_Exception;
  time_time := fun n => (1720000000 + Z.of_nat n)%Z
}.

Definition site_config : Config :=
  {| base_url := site_root;
     target_pages :=
       [ (py "idea", py "idea.html"); (py "posture", py "posture.html");
         (py "results", py "results.html"); (py "column", py "column.html") ];
     timeout := 30;
     delay_between_requests := 1 |}.

Definition site_data_dir : pystr := py "data/raw".

(** The URLs requested, in order. *)
Definition fetched (tr : list effect) : list pystr :=
  flat_map (fun e => match e with Fetch u => [u] | _ => [] end) tr.

(** The records a [Write] put into a file. *)
Definition written (e : effect) : list PageRecord :=
  match e with
  | Write _ data => data
  | _ => []
  end.

(** Every record the crawler has kept so far: those already written to a
    file and those still in [scraped_data]. *)
Definition emitted (self : Crawler) : list PageRecord :=
  flat_map written (trace self) ++ scraped_data self.

(** The length gate and the meaning of [word_count]. *)
Definition gate_ok (r : PageRecord) : Prop :=
  (100 < word_count r)%nat
  /\ word_count r = length (remove_whitespace (content r)).

(** No request follows another without a pause in between. [waited] tells
    that the crawler has paused since its last request. *)
Fixpoint polite_from (waited : bool) (tr : list effect) : bool :=
  match tr with
  | [] => true
  | Fetch _ :: rest => waited && polite_from false rest
  | Sleep _ :: rest => polite_from true rest
  | Write _ _ :: rest => polite_from waited rest
  end.

Definition polite (tr : list effect) : bool := polite_from true tr.

(** The bookkeeping of a crawler agrees with what it has done: every URL it
    requested is marked visited, and the records it has kept come from
    visited URLs, one record per URL at most. *)
Definition consistent (self : Crawler) : Prop :=
  (forall u, u ∈ fetched (trace self) -> u ∈ visited_urls self)
  /\ NoDup (map url (emitted self))
  /\ (forall r, r ∈ emitted self -> url r ∈ visited_urls self).

(** The paths of the files written. *)
Definition written_paths (tr : list effect) : list pystr :=
  flat_map (fun e => match e with Write path _ => [path] | _ => [] end) tr.

(** ** The moves of a crawler

    Every method of [WebCrawler] is a sequence of the following moves (see
    [crawl_all_pages_steps] and the lemmas before it); what all the moves
    preserve, every run preserves. *)

(** What [_crawl_single_page] keeps of a page. *)
Definition kept (content_data : PageRecord) : list PageRecord :=
  if (100 <? word_count content_data)%nat then [content_data] else [].

Section Steps.
Context `{World} (config : Config) (data_dir : pystr).

(** The records a request for [u] adds to [scraped_data], by what the
    request returned; [d] is the depth tag of the fallback strategy. *)
Definition page_records (u c : pystr) (d : option nat) (html : option pystr)
    : list PageRecord :=
  if truthy html then
    let content_data := set_category c (extract_content (default [] html) u) in
    kept (match d with
          | Some current_depth => set_depth current_depth content_data
          | None => content_data
          end)
  else [].

Inductive step : Crawler -> Crawler -> Prop :=
  (** a page not seen before is marked visited and requested, and at most
      one record for it is kept *)
  | step_crawl u recs self :
      u ∉ visited_urls self ->
      (length recs <= 1)%nat ->
      Forall (fun r => url r = u /\ gate_ok r) recs ->
      step self
        (set_scraped_data (scraped_data self ++ recs)
           (log (Fetch u) (add_visited u self)))
  (** a visited page is requested again, to read its links *)
  | step_refetch u self :
      u ∈ visited_urls self -> step self (log (Fetch u) self)
  | step_sleep self : step self (sleep config self)
  | step_stamp t self :
      timestamp self = None -> step self (set_timestamp t self)
  | step_save c t self :
      timestamp self = Some t ->
      step self
        (set_scraped_data
           (List.filter (fun item => negb (has_category c item)) (scraped_data self))
           (write_file (category_file_name data_dir c t)
              (List.filter (has_category c) (scraped_data self)) self)).

(** The timestamp is [t], and every file written is named after it. *)
Definition stamped (t : Z) (s : Crawler) : Prop :=
  timestamp s = Some t
  /\ (forall path, path ∈ written_paths (trace s) ++ saved_files s ->
        exists c, path = category_file_name data_dir c t).

(** Link by link from one URL to another, as the fallback strategy goes:
    [v] follows [u] when some answer to a request for [u] shows a link to
    [v] that [_should_follow_link] admits. *)
Inductive follows (category : pystr) : pystr -> pystr -> Prop :=
  | follows_link u v n html :
      returned (_fetch_page (session_get n) u) = Some html ->
      v ∈ extract_links (base_url config) html u ->
      _should_follow_link config v category = true ->
      follows category u v.

Inductive reach (category : pystr) : nat -> pystr -> pystr -> Prop :=
  | reach_here u : reach category 0 u u
  | reach_next k u v w :
      follows category u v -> reach category k v w ->
      reach category (S k) u w.

(** What the fallback strategy may add below [u], crawled at depth [d]
    with [b] more levels allowed: records tagged with the number of links
    between the entry page and them, and requests for pages as near. *)
Definition near (c : pystr) (b : nat) (u v : pystr) : Prop :=
  exists k, (k <= b)%nat /\ reach c k u v.

Definition tagged (c : pystr) (b : nat) (u : pystr) (d : nat) (r : PageRecord)
    : Prop :=
  exists k, (k <= b)%nat /\ depth r = Some (d + k)%nat
    /\ category r = Some c /\ reach c k u (url r).

(** From [s] to [s'] the crawler has only added records that satisfy [P]
    and requests for URLs that satisfy [Q]. *)
Definition grown (P : PageRecord -> Prop) (Q : pystr -> Prop)
    (s s' : Crawler) : Prop :=
  exists new ext,
    scraped_data s' = scraped_data s ++ new
    /\ trace s' = trace s ++ ext
    /\ Forall P new /\ Forall Q (fetched ext).

End Steps.

(** ** More of the repository

    Definitions for the properties of the last part of the file. *)

(** A word: not empty, no whitespace in it. *)
Definition is_word (p : pystr) : Prop :=
  p <> [] /\ forallb (fun c => negb (isspace c)) p = true.

(** Induction over a document: a property of all children gives the
    property of the tag. *)
Fixpoint node_induction (P : node -> Prop)
    (HText : forall s, P (Text s))
    (HTag : forall t a cs, Forall P cs -> P (Tag t a cs)) (n : node) : P n :=
  match n with
  | Text s => HText s
  | Tag t a cs =>
      HTag t a cs
        ((fix each (cs : list node) : Forall P cs :=
            match cs return Forall P cs with
            | [] => @List.Forall_nil node P
            | c :: cs' =>
                @List.Forall_cons node P c cs'
                  (node_induction P HText HTag c) (each cs')
            end) cs)
  end.

(** A tag with one of the names. *)
Definition named (names : list pystr) (n : node) : bool :=
  existsb (fun nm => has_name nm n) names.

(** Truth value of a list: the empty list is false. *)
Definition some_items {A} (l : list A) : bool :=
  match l with
  | [] => false
  | _ => true
  end.

Definition is_write (e : effect) : bool :=
  match e with
  | Write _ _ => true
  | _ => false
  end.

(** [json.dump(data, open(path, 'w'))] alone, as in [save_data]. *)
Definition json_dump (path : pystr) (data : list PageRecord) (self : Crawler)
    : Crawler :=
  {| visited_urls := visited_urls self; scraped_data := scraped_data self;
     timestamp := timestamp self; saved_files := saved_files self;
     trace := trace self ++ [Write path data]; fs := <[path := data]> (fs self) |}.

(** [self.saved_files.extend(paths)] *)
Definition extend_saved_files (paths : list pystr) (self : Crawler) : Crawler :=
  {| visited_urls := visited_urls self; scraped_data := scraped_data self;
     timestamp := timestamp self; saved_files := saved_files self ++ paths;
     trace := trace self; fs := fs self |}.

(** [item.get('category', 'unknown')] *)
Definition category_or_unknown (item : PageRecord) : pystr :=
  default (py "unknown") (category item).

(** [if category not in d: d[category] = []] followed by
    [d[category].append(item)], on a dictionary kept in insertion order. *)
Fixpoint setdefault_append (category : pystr) (item : PageRecord)
    (d : list (pystr * list PageRecord)) : list (pystr * list PageRecord) :=
  match d with
  | [] => [(category, [item])]
  | (k, items) :: rest =>
      if pystr_eqb k category then (k, items ++ [item]) :: rest
      else (k, items) :: setdefault_append category item rest
  end.

(** The dictionary [data_by_category] of [save_data]. *)
Definition data_by_category (items : list PageRecord)
    : list (pystr * list PageRecord) :=
  for_each items
    (fun item d => setdefault_append (category_or_unknown item) item d) [].

(** The labels of [_format_document_content]:
    基本理念, 政治姿勢, 実績, 記者会見, コラム. *)
Definition category_labels : list (pystr * pystr) :=
  [ (py "idea", [22522; 26412; 29702; 24565]);
    (py "posture", [25919; 27835; 23039; 21218]);
    (py "results", [23455; 32318]);
    (py "kaiken", [35352; 32773; 20250; 35211]);
    (py "column", [12467; 12521; 12512]) ].

(** What [_create_document_from_scraped] hands to [Document.from_text]: the
    text and the metadata. *)
Record Document : Type := {
  doc_content : pystr;
  meta_url : pystr;
  meta_title : pystr;
  meta_category : pystr;
  meta_word_count : nat;
  meta_description : option pystr
}.

(** [DocumentIndexer._format_document_content] *)
Definition _format_document_content (data : PageRecord) : pystr :=
  let raw := default [] (category data) in
  let category := default raw (get_attr raw category_labels) in
  join [NEWLINE] [py "[" ++ category ++ py "]"; content data].

(** [DocumentIndexer._create_document_from_scraped] *)
Definition _create_document_from_scraped (data : PageRecord) : option Document :=
  if negb (nonempty (content data)) || (length (content data) <? 100)%nat then None
  else
    Some {| doc_content := _format_document_content data;
            meta_url := url data;
            meta_title := title data;
            meta_category := default (py "general") (category data);
            meta_word_count := word_count data;
            meta_description :=
              if nonempty (description data) then Some (description data)
              else None |}.

(** [DocumentIndexer.index_scraped_data]: the documents handed to
    [insert_documents]; the method returns their number. *)
Definition index_scraped_data (scraped_data : list PageRecord) : list Document :=
  omap _create_document_from_scraped scraped_data.

Section More.
Context `{World} (config : Config) (data_dir : pystr).

(** One iteration of [for category, items in data_by_category.items()] in
    [save_data]; [saved] is the local list [saved_files]. *)
Definition dump_group (group : pystr * list PageRecord)
    (state : list pystr * Crawler) : list pystr * Crawler :=
  let '(category, items) := group in
  let '(saved, self) := state in
  let category_file :=
    category_file_name data_dir category (default 0%Z (timestamp self)) in
  (saved ++ [category_file], json_dump category_file items self).

(** [WebCrawler.save_data] *)
Definition save_data (self : Crawler) : list pystr * Crawler :=
  if some_items (saved_files self) && negb (some_items (scraped_data self))
  then (saved_files self, self)
  else if negb (some_items (scraped_data self)) then ([], self)
  else
    let groups := data_by_category (scraped_data self) in
    let self :=
      match timestamp self with
      | None => set_timestamp (time_time (length (trace self))) self
      | Some _ => self
      end in
    let '(saved, self) := for_each groups dump_group ([], self) in
    (saved, extend_saved_files saved self).

(** [scrape_website] of [main.py]: the path it returns, the number of
    pages it prints, and the crawler it leaves. *)
Definition scrape_website : list pystr * nat * Crawler :=
  let crawler := WebCrawler in
  let '(_, crawler) := crawl_all_pages config data_dir crawler in
  let scraped_data := scraped_data crawler in
  let '(output_path, crawler) := save_data crawler in
  (output_path, length scraped_data, crawler).

(** A record made from an answer to a request for its URL: the fields
    [extract_content] gives, the category [c], and a depth or none. *)
Definition record_of (c : pystr) (r : PageRecord) : Prop :=
  exists n html,
    returned (_fetch_page (session_get n) (url r)) = Some html
    /\ html <> []
    /\ (100 < word_count r)%nat
    /\ (r = set_category c (extract_content html (url r))
        \/ exists d, r = set_depth d (set_category c (extract_content html (url r)))).

(** From [s] to [s'] a strategy has run: it has added records that satisfy
    [P] and requests for URLs that satisfy [Q], has paused, and has touched
    neither the files nor the timestamp. *)
Definition crawls (P : PageRecord -> Prop) (Q : pystr -> Prop)
    (s s' : Crawler) : Prop :=
  exists new ext,
    scraped_data s' = scraped_data s ++ new
    /\ trace s' = trace s ++ ext
    /\ Forall P new /\ Forall Q (fetched ext)
    /\ existsb is_write ext = false
    /\ timestamp s' = timestamp s
    /\ saved_files s' = saved_files s
    /\ fs s' = fs s.

(** From [s] to [s'] every request was for a URL not visited before, none
    was made twice, and the URLs requested are those newly visited. *)
Definition fresh_requests (s s' : Crawler) : Prop :=
  exists ext,
    trace s' = trace s ++ ext
    /\ NoDup (fetched ext)
    /\ (forall v, v ∈ fetched ext -> v ∉ visited_urls s)
    /\ (forall v, v ∈ visited_urls s' <-> v ∈ visited_urls s \/ v ∈ fetched ext).

End More.

Section MoreRuns.
Context `{World} (config : Config) (data_dir : pystr).

(** [v] is the main page [u] or a link of the base host that one of the
    patterns matches. *)
Definition listed (patterns : list pystr) (u v : pystr) : Prop :=
  v = u
  \/ ((netloc v = netloc (base_url config) \/ netloc v = [])
      /\ exists p, p ∈ patterns /\ re_search p false v = true).

(** A file written in a run stamped [t]: it is not empty, it is named after
    one of the categories, and it holds records of that category only, each
    made from a page that came back. *)
Definition category_file_ok (names : list pystr) (t : Z) (e : effect) : Prop :=
  match e with
  | Write path data =>
      data <> []
      /\ exists name, name ∈ names
           /\ path = category_file_name data_dir name t
           /\ Forall (fun r => category r = Some name /\ record_of name r) data
  | _ => True
  end.

End MoreRuns.

(** The sample site when it cannot be reached: every request fails. *)
Definition offline_get (n : nat) (u : pystr) : outcome Response :=
  Raise ConnectionError.

Lemma offline_get_Exception n u e :
  offline_get n u = Raise e -> is_Exception e = true.
Proof. by intros [= <-]. Defined.

Definition offline : World := {|
  BeautifulSoup := site_parse;
  urljoin := site_urljoin;
  netloc := site_netloc;
  re_search := site_re_search;
  isdecimal := ascii_digit;
  lower := site_lower;
  list_set := remove_dups;
  list_set_perm := fun items => Permutation_refl (remove_dups items);
  path_div := fun directory name => directory ++ py "/" ++ name;
  session_get := offline_get;
  session_get_Exception := offline_get_Exception;
  time_time := fun n => (1720000000 + Z.of_nat n)%Z
|}.

(** [d.get(category, [])] on the dictionary of [save_data]. *)
Fixpoint group_of (category : pystr) (d : list (pystr * list PageRecord))
    : list PageRecord :=
  match d with
  | [] => []
  | (k, items) :: rest =>
      if pystr_eqb k category then items else group_of category rest
  end.

(** The record counts for the category [c] in [save_data]. *)
Definition in_category (c : pystr) (item : PageRecord) : bool :=
  bool_decide (category_or_unknown item = c).

(** A dictionary of [save_data]: no key twice, no empty group. *)
Definition grouped (d : list (pystr * list PageRecord)) : Prop :=
  NoDup (map fst d) /\ forall k, k ∈ map fst d -> group_of k d <> [].

(** The files after the writes of [ext], in their order, on the files
    [files]: a later write to a path replaces an earlier one. *)
Definition replay (ext : list effect) (files : gmap pystr (list PageRecord))
    : gmap pystr (list PageRecord) :=
  foldl (fun m e => match e with Write path data => <[path := data]> m | _ => m end)
    files ext.

(** * Properties *)

Example clean_text_ex :
  _clean_text (py "  a" ++ [NEWLINE; 12288] ++ py "b  c ") = py "a b c".
Proof. reflexivity. Qed.

Example split_ex : split (py " ab  c ") = [py "ab"; py "c"].
Proof. reflexivity. Qed.

Example str_of_int_ex : str_of_int 1720000000 = py "1720000000".
Proof. reflexivity. Qed.

(** The date in the text of the article-title region, with no [datetime]
    attribute. *)
Example publish_date_from_text :
  _extract_publish_date (article_page [] date_text) = Some (py "2014-06-05").
Proof. reflexivity. Qed.

Example publish_date_missing :
  _extract_publish_date (site_page "idea" 150 []) = None.
Proof. reflexivity. Qed.

Example site_links :
  extract_links site_root (py "<title>results</title>") (site_url "results.html")
  = [site_url "results_japan7.html"].
Proof. vm_compute. reflexivity. Qed.

(** The results strategy on the sample site: the main page twice, then the
    one result page and the pause. *)
Example site_results_trace :
  trace (crawl_category site_config (py "results") (site_url "results.html")
           WebCrawler)
  = [Fetch (site_url "results.html"); Fetch (site_url "results.html");
     Fetch (site_url "results_japan7.html"); Sleep 1].
Proof. vm_compute. reflexivity. Qed.

(** The fallback strategy from the column page: the list page at depth 1,
    the detail page, reached through it, at depth 2. *)
Example site_fallback_depths :
  map (fun r => (url r, depth r))
    (scraped_data
       (crawl_category site_config (py "news") (site_url "column.html") WebCrawler))
  = [(site_url "column.html", Some 0%nat);
     (site_url "column_list1.html", Some 1%nat);
     (site_url "column_detail1.html", Some 2%nat)].
Proof. vm_compute. reflexivity. Qed.

(** A whole run over the sample site reports six pages in three files. *)
Example site_run :
  fst (crawl_all_pages site_config site_data_dir WebCrawler) = 6%nat
  /\ scraped_data (snd (crawl_all_pages site_config site_data_dir WebCrawler)) = [].
Proof. split; vm_compute; reflexivity. Qed.

(** ** Text cleaning *)

Lemma sub_runs_chars cls repl in_run text c :
  c ∈ sub_runs cls repl in_run text -> c ∈ repl \/ (c ∈ text /\ cls c = false).
Proof.
  revert in_run. induction text as [|x rest IH]; intros in_run; simpl.
  - intros Hc. by apply elem_of_nil in Hc.
  - destruct (cls x) eqn:Hx.
    + destruct in_run.
      * intros Hc. destruct (IH _ Hc) as [?|[? ?]]; [by left|right].
        split; [by apply list_elem_of_further|done].
      * rewrite elem_of_app. intros [Hc|Hc]; [by left|].
        destruct (IH _ Hc) as [?|[? ?]]; [by left|right].
        split; [by apply list_elem_of_further|done].
    + rewrite elem_of_cons. intros [->|Hc].
      * right. split; [apply list_elem_of_here|done].
      * destruct (IH _ Hc) as [?|[? ?]]; [by left|right].
        split; [by apply list_elem_of_further|done].
Qed.

Lemma sub_runs_absent cls repl in_run text :
  (forall c, c ∈ text -> cls c = false) -> sub_runs cls repl in_run text = text.
Proof.
  revert in_run. induction text as [|x rest IH]; intros in_run Hno; simpl; [done|].
  rewrite (Hno x) by apply list_elem_of_here.
  f_equal. apply IH. intros c Hc. apply Hno. by apply list_elem_of_further.
Qed.

Lemma lstrip_elem text c : c ∈ lstrip text -> c ∈ text.
Proof.
  induction text as [|x rest IH]; simpl; [done|].
  destruct (isspace x); [|done].
  intros Hc. apply list_elem_of_further. by apply IH.
Qed.

Lemma elem_of_rev {A} (l : list A) x : x ∈ rev l <-> x ∈ l.
Proof. rewrite !list_elem_of_In. symmetry. apply in_rev. Qed.

Lemma strip_elem text c : c ∈ strip text -> c ∈ text.
Proof.
  unfold strip, rstrip. rewrite elem_of_rev. intros Hc.
  apply lstrip_elem in Hc. rewrite elem_of_rev in Hc.
  by apply lstrip_elem.
Qed.

(** After the first substitution the only whitespace left is the space. *)
Lemma spaces_only_after_sub text c :
  c ∈ strip (re_sub_plus isspace [SPACE] text) -> isspace c = true -> c = SPACE.
Proof.
  intros Hc Hsp. apply strip_elem in Hc.
  apply sub_runs_chars in Hc as [Hc|[_ Hc]].
  - by apply list_elem_of_singleton in Hc.
  - congruence.
Qed.

(** The newline substitution of [_clean_text] finds nothing to replace. *)
Lemma clean_text_eq text :
  _clean_text text = strip (re_sub_plus isspace [SPACE] text).
Proof.
  destruct text as [|x rest]; [done|].
  unfold _clean_text. apply sub_runs_absent.
  intros c Hc. destruct (N.eqb_spec NEWLINE c) as [<-|]; [|done].
  by apply spaces_only_after_sub in Hc.
Qed.

Lemma clean_text_spaces text c :
  c ∈ _clean_text text -> isspace c = true -> c = SPACE.
Proof. rewrite clean_text_eq. apply spaces_only_after_sub. Qed.

Lemma clean_text_no_newline text : NEWLINE ∉ _clean_text text.
Proof. intros Hc. by apply clean_text_spaces in Hc. Qed.

Lemma content_of_extract `{World} html u :
  exists raw, content (extract_content html u) = _clean_text raw.
Proof. unfold extract_content. simpl. eauto. Qed.

(** C10. The content returned by [extract_content] holds no newline: its only
    whitespace characters are spaces, because [_clean_text] has replaced every
    run of whitespace before its newline substitution runs, which then
    changes nothing. *)
Theorem content_is_one_line `{World} (html u : pystr) :
  (NEWLINE ∉ content (extract_content html u))
  /\ (forall c, c ∈ content (extract_content html u) -> isspace c = true -> c = SPACE)
  /\ (forall raw, _clean_text raw = strip (re_sub_plus isspace [SPACE] raw)).
Proof.
  destruct (content_of_extract html u) as [raw ->].
  split; [apply clean_text_no_newline|].
  split; [apply clean_text_spaces|apply clean_text_eq].
Qed.

(** ** The character count *)

Lemma join_empty parts : join [] parts = concat parts.
Proof.
  induction parts as [|p [|q ps] IH]; simpl in *; [done| |].
  - by rewrite app_nil_r.
  - by rewrite IH.
Qed.

Lemma split_go_concat word text :
  concat (split_go word text) = word ++ remove_whitespace text.
Proof.
  revert word. induction text as [|c rest IH]; intros word; simpl.
  - destruct word; simpl; by rewrite ?app_nil_r.
  - unfold remove_whitespace in *. simpl. destruct (isspace c); simpl.
    + destruct word; simpl; by rewrite IH.
    + rewrite IH. by rewrite <- app_assoc.
Qed.

(** [len(''.join(text.split()))] counts the characters that are not
    whitespace. *)
Lemma char_count_spec text : char_count text = length (remove_whitespace text).
Proof.
  destruct text as [|c rest]; [done|].
  unfold char_count, split. by rewrite join_empty, split_go_concat.
Qed.

(** ** Fetching a page *)

Lemma fetch_page_cases (session_get : pystr -> outcome Response) (u : pystr) :
  (forall e, session_get u = Raise e -> is_Exception e = true) ->
  _fetch_page session_get u
  = match session_get u with
    | Return response =>
        if ((400 <=? status_code response) && (status_code response <? 600))%Z
        then Return None
        else Return (Some (text response (encoding_of response)))
    | Raise _ => Return None
    end.
Proof.
  intros Hexn. unfold _fetch_page, raise_for_status.
  destruct (session_get u) as [response|e]; simpl.
  - by destruct (_ && _).
  - by rewrite (Hexn e eq_refl).
Qed.

(** C8. [_fetch_page] returns the body or [None] and raises nothing, whatever
    [Exception] the session raises: a network error or a timeout gives
    [None], a 4xx or 5xx status gives [None], any other response gives its
    text. *)
Theorem fetch_page_never_raises (session_get : pystr -> outcome Response)
    (u : pystr) :
  (forall e, session_get u = Raise e -> is_Exception e = true) ->
  (exists r, _fetch_page session_get u = Return r
     /\ (r = None
         \/ exists response, session_get u = Return response
              /\ r = Some (text response (encoding_of response))))
  /\ (forall e, session_get u = Raise e -> _fetch_page session_get u = Return None)
  /\ (forall response, session_get u = Return response ->
        (400 <= status_code response < 600)%Z ->
        _fetch_page session_get u = Return None)
  /\ (forall response, session_get u = Return response ->
        (200 <= status_code response < 300)%Z ->
        _fetch_page session_get u
        = Return (Some (text response (encoding_of response)))).
Proof.
  intros Hexn. rewrite (fetch_page_cases _ _ Hexn).
  destruct (session_get u) as [response|e] eqn:Hget.
  - destruct ((400 <=? status_code response)%Z && (status_code response <? 600)%Z)
      eqn:Hstatus.
    + split; [eexists; split; [done|by left]|].
      split; [done|]. split; [done|].
      intros ? [= <-] ?. apply andb_prop in Hstatus as [?%Z.leb_le ?%Z.ltb_lt]. lia.
    + split; [eexists; split; [done|right; eauto]|].
      split; [done|]. split; [|by intros ? [= <-] ?].
      intros ? [= <-] ?. apply andb_false_iff in Hstatus as [?%Z.leb_gt|?%Z.ltb_ge]; lia.
  - split; [eexists; split; [done|by left]|].
    split; [done|]. split; intros ? [=].
Qed.

Lemma fetch_page_never_raises_witness :
  _fetch_page session_timing_out (py "https://www.sanae.gr.jp/idea.html")
  = Return None.
Proof.
  refine (proj1 (proj2 (fetch_page_never_raises session_timing_out
            (py "https://www.sanae.gr.jp/idea.html") _)) Timeout eq_refl).
  intros e [= <-]. reflexivity.
Defined.

(** In a world, a call of [_fetch_page] returns: [fetch] loses nothing. *)
Lemma fetch_page_returns `{World} n u :
  _fetch_page (session_get n) u = Return (returned (_fetch_page (session_get n) u)).
Proof.
  rewrite fetch_page_cases by apply session_get_Exception.
  destruct (session_get n u) as [response|e]; [|done].
  by destruct (_ && _).
Qed.

(** ** The publish date *)

(** C9. Two pages on which [_extract_publish_date] does not do what its
    docstring and the specification say. A [datetime] attribute carrying a
    time of day is returned as it stands, not as [YYYY-MM-DD]; and a [time]
    tag found by a fallback selector only, with the date in its text, gives
    [None]: the text pattern is read in the article-title region alone. *)
Theorem publish_date_divergence `{World} :
  _extract_publish_date
    (article_page [(py "datetime", py "2014-06-05T09:00:00+09:00")] date_text)
  = Some (py "2014-06-05T09:00:00+09:00")
  /\ _extract_publish_date
       (document [Tag (py "article") [] [Tag (py "time") [] [Text date_text]]])
     = None.
Proof. split; reflexivity. Qed.

(** ** Links *)

Lemma list_set_elem `{World} items x : x ∈ list_set items <-> x ∈ items.
Proof. rewrite (list_set_perm items). apply elem_of_remove_dups. Qed.

Lemma list_set_NoDup `{World} items : NoDup (list_set items).
Proof. rewrite (list_set_perm items). apply NoDup_remove_dups. Qed.

Lemma collect_links_elem `{World} base cur hrefs u :
  u ∈ collect_links base cur hrefs ->
  exists href, href ∈ hrefs /\ skipped_href href = false
    /\ u = urljoin cur href /\ _is_same_domain u base = true.
Proof.
  induction hrefs as [|h rest IH]; simpl.
  - intros Hu. by apply elem_of_nil in Hu.
  - destruct (skipped_href h) eqn:Hskip.
    + intros Hu. destruct (IH Hu) as (href & ? & ?).
      exists href. split; [by apply list_elem_of_further|done].
    + destruct (_is_same_domain (urljoin cur h) base) eqn:Hdom.
      * rewrite elem_of_cons. intros [->|Hu].
        -- exists h. split; [apply list_elem_of_here|done].
        -- destruct (IH Hu) as (href & ? & ?).
           exists href. split; [by apply list_elem_of_further|done].
      * intros Hu. destruct (IH Hu) as (href & ? & ?).
        exists href. split; [by apply list_elem_of_further|done].
Qed.

Lemma is_same_domain_spec `{World} u base :
  _is_same_domain u base = true <-> netloc u = netloc base \/ netloc u = [].
Proof.
  unfold _is_same_domain, pystr_eqb.
  rewrite orb_true_iff, !bool_decide_eq_true. done.
Qed.

Lemma skipped_href_false href :
  skipped_href href = false ->
  href <> [] /\ startswith href (py "#") = false
  /\ startswith href (py "javascript:") = false.
Proof.
  unfold skipped_href. rewrite !orb_false_iff, negb_false_iff.
  intros [[Hne ?] ?]. split; [|done]. by intros ->.
Qed.

Lemma collect_links_skips `{World} base cur hrefs :
  collect_links base cur hrefs
  = collect_links base cur (List.filter (fun href => negb (skipped_href href)) hrefs).
Proof.
  induction hrefs as [|h rest IH]; simpl; [done|].
  destruct (skipped_href h) eqn:Hskip; simpl; [done|].
  rewrite Hskip. by destruct (_is_same_domain _ _); rewrite IH.
Qed.

(** C6. [extract_links] returns no duplicate, and each URL it returns has the
    host of the base URL or no host at all, and is the resolution of an
    [href] of the page that is not empty and starts neither with [#] nor with
    [javascript:]; the [href]s of those three kinds contribute nothing: the
    result is the same with them removed from the page. *)
Theorem extract_links_same_domain `{World} (base html cur : pystr) :
  NoDup (extract_links base html cur)
  /\ (forall u, u ∈ extract_links base html cur ->
       (netloc u = netloc base \/ netloc u = [])
       /\ exists href, href ∈ anchor_hrefs (BeautifulSoup html)
            /\ href <> []
            /\ startswith href (py "#") = false
            /\ startswith href (py "javascript:") = false
            /\ u = urljoin cur href)
  /\ extract_links base html cur
     = list_set
         (collect_links base cur
            (List.filter (fun href => negb (skipped_href href))
               (anchor_hrefs (BeautifulSoup html)))).
Proof.
  unfold extract_links. split; [apply list_set_NoDup|].
  split; [|by rewrite <- collect_links_skips].
  intros u Hu. apply list_set_elem, collect_links_elem in Hu
    as (href & Hin & Hskip & -> & Hdom).
  split; [by apply is_same_domain_spec|].
  apply skipped_href_false in Hskip as (? & ? & ?). eauto 10.
Qed.


(** ** Every method is a sequence of moves *)

Lemma for_each_rel {A S} (R : relation S) `{!Reflexive R} `{!Transitive R}
    (items : list A) (body : A -> S -> S) (s : S) :
  (forall x s, R s (body x s)) -> R s (for_each items body s).
Proof.
  intros Hbody. revert s. induction items as [|x rest IH]; intros s; simpl.
  - reflexivity.
  - transitivity (body x s); [apply Hbody|apply IH].
Qed.

Lemma for_each_snd {A B S} (R : relation S) `{!Reflexive R} `{!Transitive R}
    (items : list A) (body : A -> B * S -> B * S) (b : B) (s : S) :
  (forall x b s, R s (snd (body x (b, s)))) ->
  R s (snd (for_each items body (b, s))).
Proof.
  intros Hbody. revert b s. induction items as [|x rest IH]; intros b s; simpl.
  - reflexivity.
  - specialize (Hbody x b s). destruct (body x (b, s)) as [b' s'].
    transitivity s'; [exact Hbody|apply IH].
Qed.

Section Moves.
Context `{World} (config : Config) (data_dir : pystr).
Implicit Types (self : Crawler) (u c : pystr).

Local Abbreviation step := (step config data_dir).
Local Abbreviation now self u :=
  (returned (_fetch_page (session_get (length (trace self))) u)).

(** [_crawl_single_page], in one expression. *)
Lemma crawl_single_page_eq u c self :
  _crawl_single_page u c self
  = if bool_decide (u ∈ visited_urls self) then self
    else set_scraped_data
           (scraped_data self ++ page_records u c None (now self u))
           (log (Fetch u) (add_visited u self)).
Proof.
  unfold _crawl_single_page, fetch, page_records, kept.
  case_bool_decide; [done|]. simpl.
  destruct (truthy _); simpl; [destruct (_ <? _)%nat; [done|]|];
    destruct self; unfold set_scraped_data, log, add_visited; simpl;
    by rewrite app_nil_r.
Qed.

Lemma kept_gate r : word_count r = char_count (content r) ->
  Forall (fun r' => url r' = url r /\ gate_ok r') (kept r).
Proof.
  intros Hcount. unfold kept. destruct (_ <? _)%nat eqn:Hgate; [|done].
  apply Nat.ltb_lt in Hgate. repeat constructor; [done|].
  by rewrite Hcount, char_count_spec.
Qed.

Lemma page_records_ok u c d html :
  (length (page_records u c d html) <= 1)%nat
  /\ Forall (fun r => url r = u /\ gate_ok r) (page_records u c d html).
Proof.
  unfold page_records. destruct (truthy html); [|by split; [simpl; lia|]].
  split.
  - unfold kept. destruct (_ <? _)%nat; simpl; lia.
  - destruct d as [d|].
    + by apply (kept_gate (set_depth d (set_category c (extract_content _ u)))).
    + by apply (kept_gate (set_category c (extract_content _ u))).
Qed.

Lemma crawl_single_page_steps u c self :
  rtc step self (_crawl_single_page u c self).
Proof.
  rewrite crawl_single_page_eq. case_bool_decide; [done|].
  apply rtc_once.
  by apply step_crawl; [|apply page_records_ok..].
Qed.

Lemma crawl_single_page_visited u c self :
  u ∈ visited_urls (_crawl_single_page u c self).
Proof.
  rewrite crawl_single_page_eq. case_bool_decide; [done|].
  simpl. set_solver.
Qed.

Lemma refetch_steps u self :
  u ∈ visited_urls self -> rtc step self (log (Fetch u) self).
Proof. intros Hu. apply rtc_once. by apply step_refetch. Qed.

Lemma crawl_links_steps links c self :
  rtc step self (crawl_links config links c self).
Proof.
  unfold crawl_links. apply (for_each_rel (rtc step)).
  intros link s. case_bool_decide; [done|].
  eapply rtc_r; [apply crawl_single_page_steps|apply step_sleep].
Qed.

(** The page is crawled, then requested again. *)
Lemma crawl_then_fetch_steps u c self :
  rtc step self (log (Fetch u) (_crawl_single_page u c self)).
Proof.
  etrans; [apply (crawl_single_page_steps u c)|].
  apply refetch_steps, crawl_single_page_visited.
Qed.

(** What a strategy does after it has crawled its main page and requested
    it again. *)
Lemma crawl_results_pages_tail u self :
  rtc step (log (Fetch u) (_crawl_single_page u (py "results") self))
    (_crawl_results_pages config u self).
Proof.
  unfold _crawl_results_pages, fetch.
  destruct (negb _); [done|apply crawl_links_steps].
Qed.

Lemma process_list_pages_steps list_links c pattern acc self :
  rtc step self (snd (process_list_pages config list_links c pattern acc self)).
Proof.
  unfold process_list_pages.
  apply (for_each_snd (rtc step)).
  intros list_url acc' s. unfold fetch. case_bool_decide; [done|].
  etrans; [apply (crawl_then_fetch_steps list_url c)|].
  destruct (truthy _); simpl; [|done].
  apply rtc_once, step_sleep.
Qed.

Lemma crawl_column_pages_tail u self :
  rtc step (log (Fetch u) (_crawl_single_page u (py "column") self))
    (_crawl_column_pages config u self).
Proof.
  unfold _crawl_column_pages, fetch.
  destruct (negb _); [done|].
  match goal with
  | |- context [process_list_pages ?cf ?l ?c ?p ?a ?s] =>
      pose proof (process_list_pages_steps l c p a s) as H3;
      destruct (process_list_pages cf l c p a s) as [details s3]
  end.
  etrans; [exact H3|]. apply crawl_links_steps.
Qed.

Lemma crawl_kaiken_pages_tail u self :
  rtc step (log (Fetch u) (_crawl_single_page u (py "kaiken") self))
    (_crawl_kaiken_pages config u self).
Proof.
  unfold _crawl_kaiken_pages, fetch.
  destruct (negb _); [done|].
  match goal with
  | |- context [process_list_pages ?cf ?l ?c ?p ?a ?s] =>
      pose proof (process_list_pages_steps l c p a s) as H3;
      destruct (process_list_pages cf l c p a s) as [details s3]
  end.
  etrans; [exact H3|]. apply crawl_links_steps.
Qed.

Lemma crawl_results_pages_steps u self :
  rtc step self (_crawl_results_pages config u self).
Proof.
  etrans; [apply (crawl_then_fetch_steps u (py "results"))|].
  apply crawl_results_pages_tail.
Qed.

Lemma crawl_column_pages_steps u self :
  rtc step self (_crawl_column_pages config u self).
Proof.
  etrans; [apply (crawl_then_fetch_steps u (py "column"))|].
  apply crawl_column_pages_tail.
Qed.

Lemma crawl_kaiken_pages_steps u self :
  rtc step self (_crawl_kaiken_pages config u self).
Proof.
  etrans; [apply (crawl_then_fetch_steps u (py "kaiken"))|].
  apply crawl_kaiken_pages_tail.
Qed.

(** [crawl_below], in one expression. *)
Lemma crawl_below_eq b u c d self :
  crawl_below config b u c d self
  = if bool_decide (u ∈ visited_urls self) then self
    else
      let html := now self u in
      let self1 :=
        set_scraped_data
          (scraped_data self ++ page_records u c (Some d) html)
          (log (Fetch u) (add_visited u self)) in
      if truthy html then
        match b with
        | O => self1
        | S b' =>
            for_each (extract_links (base_url config) (default [] html) u)
              (fun link s =>
                 if _should_follow_link config link c
                 then sleep config (crawl_below config b' link c (S d) s)
                 else s) self1
        end
      else self1.
Proof.
  destruct b; simpl; unfold fetch, page_records, kept;
    (case_bool_decide; [done|]); simpl;
    (destruct (truthy _); simpl; [destruct (_ <? _)%nat; [done|]|]);
    try (f_equal; []);
    destruct self; unfold set_scraped_data, log, add_visited; simpl;
    by rewrite app_nil_r.
Qed.

(** The recursion of the source: [_crawl_page_and_subpages] calls itself
    one level deeper on the links it follows. *)
Lemma crawl_page_and_subpages_eq u c max_depth d self :
  _crawl_page_and_subpages config u c max_depth d self
  = if bool_decide (u ∈ visited_urls self) || (max_depth <? d)%nat then self
    else
      let html := now self u in
      let self1 :=
        set_scraped_data
          (scraped_data self ++ page_records u c (Some d) html)
          (log (Fetch u) (add_visited u self)) in
      if truthy html && (d <? max_depth)%nat then
        for_each (extract_links (base_url config) (default [] html) u)
          (fun link s =>
             if _should_follow_link config link c
             then sleep config
                    (_crawl_page_and_subpages config link c max_depth (S d) s)
             else s) self1
      else self1.
Proof.
  unfold _crawl_page_and_subpages.
  destruct (Nat.ltb_spec max_depth d) as [Hlt|Hle].
  - by rewrite orb_true_r.
  - rewrite orb_false_r, crawl_below_eq. case_bool_decide; [done|]. simpl.
    destruct (truthy _); simpl; [|done].
    destruct (Nat.ltb_spec d max_depth) as [Hlt|Hge].
    + replace (max_depth - d)%nat with (S (max_depth - S d)) by lia.
      replace (max_depth <? S d)%nat with false
        by (symmetry; apply Nat.ltb_ge; lia).
      done.
    + by replace (max_depth - d)%nat with O by lia.
Qed.

Lemma crawl_below_steps b u c d self :
  rtc step self (crawl_below config b u c d self).
Proof.
  revert u d self. induction b as [|b IH]; intros u d self;
    rewrite crawl_below_eq; (case_bool_decide; [done|]); simpl;
    (assert (rtc step self
       (set_scraped_data
          (scraped_data self ++ page_records u c (Some d) (now self u))
          (log (Fetch u) (add_visited u self)))) as Hfirst
       by (apply rtc_once; by apply step_crawl; [|apply page_records_ok..]));
    (destruct (truthy _); [|done]); [done|].
  etrans; [exact Hfirst|]. apply (for_each_rel (rtc step)).
  intros link s. destruct (_should_follow_link _ _ _); [|done].
  eapply rtc_r; [apply IH|apply step_sleep].
Qed.

Lemma set_timestamp_same t self :
  timestamp self = Some t -> set_timestamp t self = self.
Proof. destruct self. simpl. by intros ->. Qed.

(** [_save_category_data], in one expression. *)
Lemma save_category_data_eq c self :
  _save_category_data data_dir c self
  = match List.filter (has_category c) (scraped_data self) with
    | [] => (None, self)
    | _ =>
        let t := default (time_time (length (trace self))) (timestamp self) in
        let path := category_file_name data_dir c t in
        (Some path,
         set_scraped_data
           (List.filter (fun item => negb (has_category c item)) (scraped_data self))
           (write_file path (List.filter (has_category c) (scraped_data self))
              (set_timestamp t self)))
    end.
Proof.
  unfold _save_category_data.
  destruct (List.filter _ _) as [|r data]; [done|].
  destruct (timestamp self) as [t|] eqn:Ht; simpl; [|done].
  by rewrite Ht, (set_timestamp_same t self Ht).
Qed.

Lemma stamp_steps self :
  rtc step self
    (set_timestamp (default (time_time (length (trace self))) (timestamp self))
       self).
Proof.
  destruct (timestamp self) as [t|] eqn:Ht; simpl.
  - by rewrite set_timestamp_same.
  - by apply rtc_once, step_stamp.
Qed.

Lemma save_category_data_steps c self :
  rtc step self (snd (_save_category_data data_dir c self)).
Proof.
  rewrite save_category_data_eq.
  destruct (List.filter _ _) as [|r data] eqn:Hdata; [done|]. simpl.
  rewrite <- Hdata.
  eapply rtc_r; [apply stamp_steps|].
  by apply (step_save config data_dir c
              (default (time_time (length (trace self))) (timestamp self))
              (set_timestamp _ self)).
Qed.

Lemma crawl_category_steps page_name u self :
  rtc step self (crawl_category config page_name u self).
Proof.
  unfold crawl_category, _crawl_page_and_subpages.
  change (2 <? 0)%nat with false. cbv iota.
  destruct (_ || _); [apply crawl_single_page_steps|].
  destruct (pystr_eqb _ _); [apply crawl_results_pages_steps|].
  destruct (pystr_eqb _ _); [apply crawl_kaiken_pages_steps|].
  destruct (pystr_eqb _ _); [apply crawl_column_pages_steps|].
  apply crawl_below_steps.
Qed.

Lemma crawl_target_steps target total self :
  rtc step self (snd (crawl_target config data_dir target (total, self))).
Proof.
  destruct target as [page_name page_path]. unfold crawl_target.
  pose proof (crawl_category_steps page_name
                (urljoin (base_url config) page_path) self) as H1.
  set (s1 := crawl_category _ _ _ self) in *.
  pose proof (save_category_data_steps page_name s1) as H2.
  destruct (_save_category_data data_dir page_name s1) as [saved s2].
  simpl in *. etrans; [exact H1|]. eapply rtc_r; [exact H2|apply step_sleep].
Qed.

Lemma crawl_all_pages_steps self :
  rtc step self (snd (crawl_all_pages config data_dir self)).
Proof.
  unfold crawl_all_pages.
  transitivity
    (set_timestamp (default (time_time (length (trace self))) (timestamp self))
       self).
  - apply stamp_steps.
  - replace (match timestamp self with
             | Some _ => self
             | None => set_timestamp (time_time (length (trace self))) self
             end)
      with (set_timestamp
              (default (time_time (length (trace self))) (timestamp self)) self).
    + apply (for_each_snd (rtc step)). intros. apply crawl_target_steps.
    + destruct (timestamp self) as [t|] eqn:Ht; simpl; [|done].
      by apply set_timestamp_same.
Qed.

End Moves.

(** ** What every move preserves *)

Lemma filter_split {A} (f : A -> bool) (l : list A) :
  List.filter f l ++ List.filter (fun x => negb (f x)) l ≡ₚ l.
Proof.
  induction l as [|x l IH]; simpl; [done|].
  destruct (f x); simpl.
  - by rewrite IH.
  - by rewrite <- Permutation_middle, IH.
Qed.

Lemma elem_of_map {A B} (f : A -> B) (l : list A) y :
  y ∈ map f l <-> exists x, y = f x /\ x ∈ l.
Proof.
  rewrite list_elem_of_In, in_map_iff. split.
  - intros (x & <- & Hx). exists x. by rewrite list_elem_of_In.
  - intros (x & -> & Hx). exists x. by rewrite <- list_elem_of_In.
Qed.

Lemma elem_of_filter' {A} (f : A -> bool) (l : list A) x :
  x ∈ List.filter f l <-> x ∈ l /\ f x = true.
Proof. rewrite !list_elem_of_In. apply filter_In. Qed.

Section Invariants.
Context `{World} (config : Config) (data_dir : pystr).
Implicit Types (self s : Crawler) (u c : pystr).

Local Abbreviation step := (step config data_dir).

Lemma rtc_preserves (P : Crawler -> Prop) :
  (forall s s', step s s' -> P s -> P s') ->
  forall s s', rtc step s s' -> P s -> P s'.
Proof. intros Hstep s s' Hrtc. induction Hrtc; eauto. Qed.

Lemma emitted_log_fetch u s : emitted (log (Fetch u) s) = emitted s.
Proof. unfold emitted. simpl. by rewrite flat_map_app; simpl; rewrite !app_nil_r. Qed.

Lemma emitted_sleep s : emitted (sleep config s) = emitted s.
Proof. unfold emitted. simpl. by rewrite flat_map_app; simpl; rewrite !app_nil_r. Qed.

Lemma emitted_crawl u recs s :
  emitted (set_scraped_data (scraped_data s ++ recs) (log (Fetch u) (add_visited u s)))
  = emitted s ++ recs.
Proof.
  unfold emitted. simpl.
  by rewrite flat_map_app; simpl; rewrite !app_nil_r, app_assoc.
Qed.

Lemma emitted_save c t s :
  emitted
    (set_scraped_data
       (List.filter (fun item => negb (has_category c item)) (scraped_data s))
       (write_file (category_file_name data_dir c t)
          (List.filter (has_category c) (scraped_data s)) s))
  ≡ₚ emitted s.
Proof.
  unfold emitted. simpl. rewrite flat_map_app. simpl.
  by rewrite app_nil_r, <- app_assoc, filter_split.
Qed.

Lemma step_gate s s' :
  step s s' -> Forall gate_ok (emitted s) -> Forall gate_ok (emitted s').
Proof.
  intros Hstep Hok. destruct Hstep as [u recs s ? ? Hrecs| | | |].
  - rewrite emitted_crawl. apply Forall_app. split; [done|].
    eapply Forall_impl; [exact Hrecs|]. by intros r [_ ?].
  - by rewrite emitted_log_fetch.
  - by rewrite emitted_sleep.
  - done.
  - by rewrite emitted_save.
Qed.

Lemma fetched_app tr tr' : fetched (tr ++ tr') = fetched tr ++ fetched tr'.
Proof. apply flat_map_app. Qed.

Lemma step_consistent s s' : step s s' -> consistent s -> consistent s'.
Proof.
  intros Hstep (Hfetch & Hdup & Hurl).
  destruct Hstep as [u recs s Hnew Hlen Hrecs|u s Hold|s|t s|c t s].
  - split; [|split].
    + intros v. simpl. rewrite fetched_app, elem_of_app. simpl.
      intros [Hv|Hv%list_elem_of_singleton]; [|set_solver].
      apply Hfetch in Hv. set_solver.
    + rewrite emitted_crawl, map_app. apply NoDup_app.
      split; [done|]. split.
      * intros v (r & -> & Hr)%elem_of_map (r' & Heq & Hr')%elem_of_map.
        apply Hurl in Hr. eapply Forall_forall in Hrecs as [Hu _]; [|exact Hr'].
        congruence.
      * destruct recs as [|r [|r' recs]]; simpl in *; [constructor| |lia].
        apply NoDup_singleton.
    + intros r. rewrite emitted_crawl, elem_of_app. simpl.
      intros [Hr|Hr]; [apply Hurl in Hr; set_solver|].
      eapply Forall_forall in Hrecs as [-> _]; [|exact Hr]. set_solver.
  - split; [|split].
    + intros v. simpl. rewrite fetched_app, elem_of_app. simpl.
      intros [Hv|Hv%list_elem_of_singleton]; [by apply Hfetch|by subst].
    + by rewrite emitted_log_fetch.
    + intros r. rewrite emitted_log_fetch. apply Hurl.
  - split; [|split].
    + intros v. simpl. rewrite fetched_app, elem_of_app. simpl.
      intros [Hv|Hv%elem_of_nil]; [by apply Hfetch|done].
    + by rewrite emitted_sleep.
    + intros r. rewrite emitted_sleep. apply Hurl.
  - done.
  - split; [|split].
    + intros v. simpl. rewrite fetched_app, elem_of_app. simpl.
      intros [Hv|Hv%elem_of_nil]; [by apply Hfetch|done].
    + by rewrite emitted_save.
    + intros r. rewrite emitted_save. apply Hurl.
Qed.

Lemma step_visited s s' : step s s' -> visited_urls s ⊆ visited_urls s'.
Proof. intros []; simpl; set_solver. Qed.

Lemma rtc_visited s s' : rtc step s s' -> visited_urls s ⊆ visited_urls s'.
Proof.
  intros Hrtc. induction Hrtc as [|s s1 s2 Hstep _ IH]; [done|].
  apply step_visited in Hstep. set_solver.
Qed.

Lemma step_trace s s' : step s s' -> exists ext, trace s' = trace s ++ ext.
Proof. intros []; simpl; eauto using app_nil_r. Qed.

Lemma rtc_trace s s' : rtc step s s' -> exists ext, trace s' = trace s ++ ext.
Proof.
  intros Hrtc. induction Hrtc as [s|s s1 s2 Hstep _ [ext2 IH]].
  - exists []. by rewrite app_nil_r.
  - apply step_trace in Hstep as [ext1 Hext1].
    exists (ext1 ++ ext2). by rewrite IH, Hext1, app_assoc.
Qed.

Lemma written_paths_app tr tr' :
  written_paths (tr ++ tr') = written_paths tr ++ written_paths tr'.
Proof. apply flat_map_app. Qed.

Lemma step_stamped t s s' :
  step s s' -> stamped data_dir t s -> stamped data_dir t s'.
Proof.
  intros Hstep [Ht Hnames].
  destruct Hstep as [u recs s _ _ _|u s _|s|t' s Hnone|c t' s Ht']; simpl.
  - split; [done|]. intros path. simpl.
    rewrite written_paths_app. simpl. rewrite app_nil_r. apply Hnames.
  - split; [done|]. intros path. simpl.
    rewrite written_paths_app. simpl. rewrite app_nil_r. apply Hnames.
  - split; [done|]. intros path. simpl.
    rewrite written_paths_app. simpl. rewrite app_nil_r. apply Hnames.
  - congruence.
  - split; [done|]. intros path. simpl.
    rewrite written_paths_app. simpl.
    assert (t' = t) as -> by congruence.
    rewrite !elem_of_app, !list_elem_of_singleton.
    intros [[Hp| ->]|[Hp| ->]]; eauto; apply Hnames, elem_of_app; eauto.
Qed.

End Invariants.

(** ** The length gate *)

Lemma page_records_short `{World} u c d html :
  (word_count (extract_content html u) <= 100)%nat ->
  page_records u c d (Some html) = [].
Proof.
  intros Hshort. unfold page_records, kept.
  destruct (truthy _); [|done].
  assert ((100 <? word_count (extract_content html u))%nat = false) as Hgate
    by (apply Nat.ltb_ge; lia).
  destruct d; simpl in *; by rewrite Hgate.
Qed.

(** C1. Every record kept by a strategy, and so every record of a run, those
    written to files included, has a [word_count] above 100 that is the
    number of non-whitespace characters of its [content]; a page whose count
    is 100 or less leaves [scraped_data] as it was. *)
Theorem gate_invariant `{World} (config : Config)
    (data_dir page_name u c html : pystr) (self : Crawler) :
  Forall gate_ok (emitted self) ->
  Forall gate_ok (emitted (crawl_category config page_name u self))
  /\ Forall gate_ok (emitted (snd (crawl_all_pages config data_dir self)))
  /\ (u ∉ visited_urls self ->
      returned (_fetch_page (session_get (length (trace self))) u) = Some html ->
      (word_count (extract_content html u) <= 100)%nat ->
      scraped_data (_crawl_single_page u c self) = scraped_data self).
Proof.
  intros Hok. split; [|split].
  - eapply (rtc_preserves config data_dir (fun s => Forall gate_ok (emitted s)));
      [apply step_gate|apply crawl_category_steps|done].
  - eapply (rtc_preserves config data_dir (fun s => Forall gate_ok (emitted s)));
      [apply step_gate|apply crawl_all_pages_steps|done].
  - intros Hnew Hhtml Hshort. rewrite crawl_single_page_eq.
    rewrite bool_decide_eq_false_2 by done. simpl.
    rewrite Hhtml, page_records_short by done. apply app_nil_r.
Qed.

Lemma gate_invariant_witness :
  Forall gate_ok (emitted (snd (crawl_all_pages site_config site_data_dir WebCrawler)))
  /\ scraped_data (_crawl_single_page (site_url "posture.html") (py "posture") WebCrawler)
     = [].
Proof.
  destruct (gate_invariant site_config site_data_dir (py "posture")
              (site_url "posture.html") (py "posture") (py "<title>posture</title>")
              WebCrawler) as (_ & Hrun & Hshort).
  - constructor.
  - split; [exact Hrun|]. apply Hshort.
    + apply not_elem_of_empty.
    + vm_compute. reflexivity.
    + apply Nat.leb_le. vm_compute. reflexivity.
Defined.

(** ** The visited set *)

Lemma crawl_single_page_visited_before `{World} u c self :
  u ∈ visited_urls self -> _crawl_single_page u c self = self.
Proof. intros Hu. rewrite crawl_single_page_eq. by rewrite bool_decide_eq_true_2. Qed.

Lemma crawl_single_page_new `{World} u c self :
  u ∉ visited_urls self ->
  u ∈ visited_urls (_crawl_single_page u c self)
  /\ trace (_crawl_single_page u c self) = trace self ++ [Fetch u].
Proof.
  intros Hu. rewrite crawl_single_page_eq, bool_decide_eq_false_2 by done.
  simpl. split; [set_solver|done].
Qed.

(** A strategy for a list of pages requests its main page twice in a row. *)
Lemma main_page_twice `{World} config (data_dir : pystr) u c self final :
  u ∉ visited_urls self ->
  rtc (step config data_dir) (log (Fetch u) (_crawl_single_page u c self)) final ->
  exists rest, trace final = trace self ++ Fetch u :: Fetch u :: rest.
Proof.
  intros Hu [rest Hrest]%rtc_trace. exists rest. rewrite Hrest. simpl.
  destruct (crawl_single_page_new u c self Hu) as [_ ->].
  by rewrite <- !app_assoc.
Qed.

Lemma list_strategy_twice `{World} config (data_dir : pystr) page_name u self :
  page_name ∈ [py "results"; py "kaiken"; py "column"] ->
  u ∉ visited_urls self ->
  exists rest,
    trace (crawl_category config page_name u self)
    = trace self ++ Fetch u :: Fetch u :: rest.
Proof.
  intros Hname Hu. unfold crawl_category.
  apply elem_of_cons in Hname as [->|Hname];
    [|apply elem_of_cons in Hname as [->|Hname];
      [|apply list_elem_of_singleton in Hname as ->]].
  - apply (main_page_twice config data_dir u (py "results")); [done|].
    apply crawl_results_pages_tail.
  - apply (main_page_twice config data_dir u (py "kaiken")); [done|].
    apply crawl_kaiken_pages_tail.
  - apply (main_page_twice config data_dir u (py "column")); [done|].
    apply crawl_column_pages_tail.
Qed.

(** C2, as the code has it. In a run the visited set only grows, every URL
    requested is in it, and no two records kept have the same URL; the crawl
    of a page does nothing when its URL is visited already, and otherwise
    marks it visited and requests it once, whether or not the request
    succeeds. But the strategies for results, kaiken and column request
    their main page a second time, to read its links. *)
Theorem visited_set_discipline `{World} (config : Config) (data_dir : pystr)
    (self : Crawler) :
  consistent self ->
  (visited_urls self ⊆ visited_urls (snd (crawl_all_pages config data_dir self))
   /\ consistent (snd (crawl_all_pages config data_dir self)))
  /\ (forall u c s, u ∈ visited_urls s ->
        _crawl_single_page u c s = s
        /\ forall max_depth d, _crawl_page_and_subpages config u c max_depth d s = s)
  /\ (forall u c s, u ∉ visited_urls s ->
        u ∈ visited_urls (_crawl_single_page u c s)
        /\ trace (_crawl_single_page u c s) = trace s ++ [Fetch u])
  /\ (forall page_name u s,
        page_name ∈ [py "results"; py "kaiken"; py "column"] ->
        u ∉ visited_urls s ->
        exists rest,
          trace (crawl_category config page_name u s)
          = trace s ++ Fetch u :: Fetch u :: rest).
Proof.
  intros Hcons. split; [split|split; [|split]].
  - apply (rtc_visited config data_dir), crawl_all_pages_steps.
  - eapply (rtc_preserves config data_dir consistent);
      [apply step_consistent|apply crawl_all_pages_steps|done].
  - intros u c s Hu. split; [by apply crawl_single_page_visited_before|].
    intros max_depth d. rewrite crawl_page_and_subpages_eq.
    by rewrite bool_decide_eq_true_2.
  - intros u c s. apply crawl_single_page_new.
  - intros page_name u s. apply (list_strategy_twice config data_dir).
Qed.

Lemma consistent_WebCrawler : consistent WebCrawler.
Proof.
  split; [|split]; simpl.
  - intros u Hu. by apply elem_of_nil in Hu.
  - constructor.
  - intros r Hr. by apply elem_of_nil in Hr.
Defined.

Lemma visited_set_discipline_witness :
  consistent (snd (crawl_all_pages site_config site_data_dir WebCrawler)).
Proof.
  exact (proj2 (proj1 (visited_set_discipline site_config site_data_dir WebCrawler
                         consistent_WebCrawler))).
Defined.

(** C2 as stated fails: in a run over the sample site some URL is requested
    twice. *)
Lemma some_url_fetched_twice :
  ~ NoDup (fetched (trace (snd (crawl_all_pages site_config site_data_dir WebCrawler)))).
Proof.
  assert (exists pre post,
            fetched (trace (snd (crawl_all_pages site_config site_data_dir WebCrawler)))
            = pre ++ site_url "results.html" :: site_url "results.html" :: post)
    as (pre & post & ->).
  { exists [site_url "idea.html"; site_url "posture.html"]. eexists.
    vm_compute. reflexivity. }
  rewrite NoDup_app. intros (_ & _ & Hdup).
  apply NoDup_cons in Hdup as [Hnot _]. apply Hnot, list_elem_of_here.
Qed.

(** ** Pauses *)

Lemma crawl_single_page_grows `{World} u c self :
  visited_urls self ⊆ visited_urls (_crawl_single_page u c self).
Proof.
  rewrite crawl_single_page_eq. case_bool_decide; [done|]. simpl. set_solver.
Qed.

(** The loop over result pages and over detail pages: each page it crawls is
    requested once and followed by the pause, whatever the request gave. *)
Lemma crawl_links_trace `{World} config links c self :
  exists crawled,
    (forall l, l ∈ crawled -> l ∈ links /\ l ∉ visited_urls self)
    /\ trace (crawl_links config links c self)
       = trace self
         ++ flat_map (fun l => [Fetch l; Sleep (delay_between_requests config)])
              crawled.
Proof.
  revert self. induction links as [|link links IH]; intros self.
  - exists []. split; [by intros l Hl%elem_of_nil|]. simpl. by rewrite app_nil_r.
  - change (crawl_links config (link :: links) c self)
      with (crawl_links config links c
              (if bool_decide (link ∈ visited_urls self) then self
               else sleep config (_crawl_single_page link c self))).
    case_bool_decide as Hlink.
    + destruct (IH self) as (crawled & Hin & Htrace). exists crawled.
      split; [|done]. intros l Hl. destruct (Hin l Hl).
      split; [by apply list_elem_of_further|done].
    + destruct (IH (sleep config (_crawl_single_page link c self)))
        as (crawled & Hin & Htrace).
      exists (link :: crawled). split.
      * intros l [->|Hl]%elem_of_cons; [split; [apply list_elem_of_here|done]|].
        destruct (Hin l Hl) as [? Hnot].
        split; [by apply list_elem_of_further|].
        intros Hl'. apply Hnot. simpl. by apply crawl_single_page_grows.
      * rewrite Htrace. simpl.
        destruct (crawl_single_page_new link c self Hlink) as [_ ->].
        by rewrite <- !app_assoc.
Qed.

(** C4, as the code has it. The crawl of every result page and of every
    detail page is followed by the configured pause, whether or not its
    request succeeded, and so is every category; but a main page is requested
    twice in a row, with no pause in between. *)
Theorem pauses_by_design `{World} (config : Config) (data_dir : pystr) :
  (forall links c self,
     exists crawled,
       (forall l, l ∈ crawled -> l ∈ links /\ l ∉ visited_urls self)
       /\ trace (crawl_links config links c self)
          = trace self
            ++ flat_map (fun l => [Fetch l; Sleep (delay_between_requests config)])
                 crawled)
  /\ (forall target total self,
        exists tr,
          trace (snd (crawl_target config data_dir target (total, self)))
          = tr ++ [Sleep (delay_between_requests config)])
  /\ (forall page_name u self,
        page_name ∈ [py "results"; py "kaiken"; py "column"] ->
        u ∉ visited_urls self ->
        exists rest,
          trace (crawl_category config page_name u self)
          = trace self ++ Fetch u :: Fetch u :: rest).
Proof.
  split; [apply crawl_links_trace|]. split.
  - intros [page_name page_path] total self. unfold crawl_target.
    destruct (_save_category_data _ _ _) as [saved s]. simpl. eauto.
  - intros page_name u self. apply (list_strategy_twice config data_dir).
Qed.

Lemma pauses_by_design_witness :
  exists rest,
    trace (crawl_category site_config (py "results") (site_url "results.html") WebCrawler)
    = Fetch (site_url "results.html") :: Fetch (site_url "results.html") :: rest.
Proof.
  refine (proj2 (proj2 (pauses_by_design site_config site_data_dir))
            (py "results") (site_url "results.html") WebCrawler _ _).
  - apply list_elem_of_here.
  - apply not_elem_of_empty.
Defined.

(** C4 as stated fails: in a run over the sample site a request follows
    another with no pause in between. *)
Lemma request_without_pause :
  polite (trace (snd (crawl_all_pages site_config site_data_dir WebCrawler)))
  = false.
Proof. vm_compute. reflexivity. Qed.

(** ** Saving a category *)

Lemma crawl_all_pages_eq `{World} config data_dir self :
  crawl_all_pages config data_dir self
  = for_each (target_pages config) (crawl_target config data_dir)
      (0%nat,
       set_timestamp (default (time_time (length (trace self))) (timestamp self))
         self).
Proof.
  unfold crawl_all_pages. destruct (timestamp self) as [t|] eqn:Ht; simpl; [|done].
  by rewrite set_timestamp_same.
Qed.

Lemma crawl_targets_steps `{World} config data_dir targets total self :
  rtc (step config data_dir) self
    (snd (for_each targets (crawl_target config data_dir) (total, self))).
Proof. apply (for_each_snd (rtc _)). intros. apply crawl_target_steps. Qed.

(** C7. [_save_category_data] returns [None] and changes nothing when no
    record of the category is buffered. Otherwise it writes exactly the
    records of the category to the file [{category}_{timestamp}.json] of the
    data directory, leaves the other records in the buffer, in their order,
    and returns the path. In a run the timestamp is taken once, at the
    start, and every file written bears it. *)
Theorem save_category_data_spec `{World} (config : Config) (data_dir c : pystr)
    (self : Crawler) :
  (List.filter (has_category c) (scraped_data self) = [] ->
   _save_category_data data_dir c self = (None, self))
  /\ (List.filter (has_category c) (scraped_data self) <> [] ->
      let t := default (time_time (length (trace self))) (timestamp self) in
      let path := path_div data_dir (c ++ py "_" ++ str_of_int t ++ py ".json") in
      let data := List.filter (has_category c) (scraped_data self) in
      exists self',
        _save_category_data data_dir c self = (Some path, self')
        /\ fs self' = <[path := data]> (fs self)
        /\ trace self' = trace self ++ [Write path data]
        /\ scraped_data self'
           = List.filter (fun item => negb (has_category c item)) (scraped_data self)
        /\ timestamp self' = Some t
        /\ saved_files self' = saved_files self ++ [path]
        /\ visited_urls self' = visited_urls self)
  /\ (let final := snd (crawl_all_pages config data_dir WebCrawler) in
      timestamp final = Some (time_time 0)
      /\ forall path, path ∈ written_paths (trace final) ++ saved_files final ->
           exists name,
             path = path_div data_dir
                      (name ++ py "_" ++ str_of_int (time_time 0) ++ py ".json")).
Proof.
  split; [|split].
  - intros Hnone. by rewrite save_category_data_eq, Hnone.
  - intros Hsome. rewrite save_category_data_eq.
    destruct (List.filter (has_category c) (scraped_data self)) as [|r data] eqn:Hdata;
      [done|].
    eexists. split; [reflexivity|]. by simpl.
  - rewrite crawl_all_pages_eq. simpl.
    apply (rtc_preserves config data_dir (stamped data_dir (time_time 0))
             (step_stamped config data_dir (time_time 0))
             (set_timestamp (time_time 0) WebCrawler));
      [apply crawl_targets_steps|].
    split; [done|]. intros path Hpath. by apply elem_of_nil in Hpath.
Qed.

Lemma save_category_data_spec_witness :
  _save_category_data site_data_dir (py "kaiken") WebCrawler = (None, WebCrawler)
  /\ saved_files (snd (crawl_all_pages site_config site_data_dir WebCrawler))
     = [py "data/raw/idea_1720000000.json"; py "data/raw/results_1720000000.json";
        py "data/raw/column_1720000000.json"].
Proof.
  split.
  - exact (proj1 (save_category_data_spec site_config site_data_dir (py "kaiken")
                    WebCrawler) eq_refl).
  - vm_compute. reflexivity.
Defined.

(** ** The column strategy on overlapping sources *)

Lemma truthy_Some page : page <> [] -> truthy (Some page) = true.
Proof. by destruct page. Qed.

Lemma crawl_single_page_kept `{World} u c page self :
  u ∉ visited_urls self ->
  (forall n, returned (_fetch_page (session_get n) u) = Some page) ->
  page <> [] ->
  (100 < word_count (extract_content page u))%nat ->
  _crawl_single_page u c self
  = set_scraped_data
      (scraped_data self ++ [set_category c (extract_content page u)])
      (log (Fetch u) (add_visited u self)).
Proof.
  intros Hnew Hpage Hne Hgate. rewrite crawl_single_page_eq.
  rewrite bool_decide_eq_false_2 by done. rewrite Hpage.
  unfold page_records, kept. rewrite (truthy_Some _ Hne).
  change (default [] (Some page)) with page.
  change (word_count (set_category c (extract_content page u)))
    with (word_count (extract_content page u)).
  apply Nat.ltb_lt in Hgate. by rewrite Hgate.
Qed.

(** The URL is none of those marked visited so far. *)
Ltac fresh_url :=
  simpl; rewrite ?elem_of_union, ?elem_of_singleton; intuition congruence.

Lemma list_set_twice `{World} x : list_set [x; x] = [x].
Proof.
  apply Permutation_singleton_r. rewrite (list_set_perm [x; x]).
  unfold remove_dups. destruct (decide_rel elem_of x [x]) as [_|Hn].
  - destruct (decide_rel elem_of x []) as [Hin|_]; [|done].
    by apply elem_of_nil in Hin.
  - destruct Hn. apply list_elem_of_here.
Qed.

(** C3. A main page shows one list page and one detail page, the list page
    shows the same detail page, every request succeeds and every page passes
    the gate: the column strategy keeps three records, for the main page,
    the list page and the detail page, and requests the detail page once. *)
Theorem column_overlap `{World} (config : Config)
    (main list_url detail_url page_main page_list page_detail : pystr)
    (self : Crawler) :
  (forall n, returned (_fetch_page (session_get n) main) = Some page_main) ->
  (forall n, returned (_fetch_page (session_get n) list_url) = Some page_list) ->
  (forall n, returned (_fetch_page (session_get n) detail_url) = Some page_detail) ->
  page_main <> [] -> page_list <> [] -> page_detail <> [] ->
  extract_subpage_links (base_url config) page_main main
    (Some (py "column_list\d+\.html")) = [list_url] ->
  extract_subpage_links (base_url config) page_main main
    (Some (py "column_detail\d+\.html")) = [detail_url] ->
  extract_subpage_links (base_url config) page_list list_url
    (Some (py "column_detail\d+\.html")) = [detail_url] ->
  main <> list_url -> main <> detail_url -> list_url <> detail_url ->
  main ∉ visited_urls self -> list_url ∉ visited_urls self ->
  detail_url ∉ visited_urls self ->
  (100 < word_count (extract_content page_main main))%nat ->
  (100 < word_count (extract_content page_list list_url))%nat ->
  (100 < word_count (extract_content page_detail detail_url))%nat ->
  scraped_data (_crawl_column_pages config main self)
  = scraped_data self
    ++ [set_category (py "column") (extract_content page_main main);
        set_category (py "column") (extract_content page_list list_url);
        set_category (py "column") (extract_content page_detail detail_url)]
  /\ trace (_crawl_column_pages config main self)
     = trace self
       ++ [Fetch main; Fetch main; Fetch list_url; Fetch list_url;
           Sleep (delay_between_requests config);
           Fetch detail_url; Sleep (delay_between_requests config)].
Proof.
  intros Hmain Hlist Hdetail Hne_main Hne_list Hne_detail Hlinks Hdirect Hlisted
    Hml Hmd Hld Hvm Hvl Hvd Hgm Hgl Hgd.
  unfold _crawl_column_pages, fetch.
  rewrite (crawl_single_page_kept main _ page_main) by done.
  rewrite Hmain, (truthy_Some _ Hne_main).
  cbn [negb]. change (default [] (Some page_main)) with page_main.
  rewrite Hlinks, Hdirect.
  unfold process_list_pages. cbn [for_each].
  rewrite bool_decide_eq_false_2 by fresh_url.
  unfold fetch.
  rewrite (crawl_single_page_kept list_url _ page_list)
    by (done || fresh_url).
  rewrite Hlist, (truthy_Some _ Hne_list).
  change (default [] (Some page_list)) with page_list. rewrite Hlisted.
  change ([detail_url] ++ [detail_url]) with [detail_url; detail_url].
  rewrite list_set_twice.
  unfold crawl_links. cbn [for_each].
  rewrite bool_decide_eq_false_2 by fresh_url.
  rewrite (crawl_single_page_kept detail_url _ page_detail)
    by (done || fresh_url).
  simpl. by rewrite <- !app_assoc.
Qed.

Lemma column_overlap_witness :
  length (scraped_data
            (_crawl_column_pages site_config (site_url "column.html") WebCrawler))
  = 3%nat.
Proof.
  destruct (column_overlap site_config
              (site_url "column.html") (site_url "column_list1.html")
              (site_url "column_detail1.html")
              (py "<title>column</title>") (py "<title>column_list1</title>")
              (py "<title>column_detail1</title>") WebCrawler) as [Hdata _];
    [..|rewrite Hdata; reflexivity].
  all: try (intros n; vm_compute; reflexivity).
  all: try (vm_compute; reflexivity).
  all: try (intros Heq; vm_compute in Heq; discriminate).
  all: try apply not_elem_of_empty.
  all: apply Nat.ltb_lt; vm_compute; reflexivity.
Defined.

(** ** The fallback strategy *)

Lemma for_each_rel_in {A S} (R : relation S) `{!Reflexive R} `{!Transitive R}
    (items : list A) (body : A -> S -> S) (s : S) :
  (forall x s, x ∈ items -> R s (body x s)) -> R s (for_each items body s).
Proof.
  revert s. induction items as [|x rest IH]; intros s Hbody; simpl.
  - reflexivity.
  - transitivity (body x s); [apply Hbody, list_elem_of_here|].
    apply IH. intros y s' Hy. by apply Hbody, list_elem_of_further.
Qed.

Section Fallback.
Context `{World} (config : Config).
Implicit Types (self s : Crawler) (u v c : pystr) (b d k : nat).

#[local] Instance grown_refl P Q : Reflexive (grown P Q).
Proof. intros s. exists [], []. by rewrite !app_nil_r. Qed.

#[local] Instance grown_trans P Q : Transitive (grown P Q).
Proof.
  intros s1 s2 s3 (new1 & ext1 & Hd1 & Ht1 & HP1 & HQ1)
    (new2 & ext2 & Hd2 & Ht2 & HP2 & HQ2).
  exists (new1 ++ new2), (ext1 ++ ext2).
  rewrite Hd2, Hd1, Ht2, Ht1, !app_assoc, fetched_app, !Forall_app. done.
Qed.

Lemma grown_mono (P P' : PageRecord -> Prop) (Q Q' : pystr -> Prop) s s' :
  (forall r, P r -> P' r) -> (forall v, Q v -> Q' v) ->
  grown P Q s s' -> grown P' Q' s s'.
Proof.
  intros HP HQ (new & ext & ? & ? & Hnew & Hext). exists new, ext.
  repeat split; [done|done|..]; eapply Forall_impl; eauto.
Qed.

Lemma grown_sleep P Q s : grown P Q s (sleep config s).
Proof. exists [], [Sleep (delay_between_requests config)]. by rewrite app_nil_r. Qed.

Lemma page_records_tags u c d html :
  Forall (fun r => url r = u /\ depth r = Some d /\ category r = Some c)
    (page_records u c (Some d) html).
Proof.
  unfold page_records, kept. destruct (truthy html); [|done].
  destruct (_ <? _)%nat; [|done]. by repeat constructor.
Qed.

Lemma near_step c b u v w :
  follows config c u v -> near config c b v w -> near config c (S b) u w.
Proof.
  unfold near. intros Hfollow (k & Hk & Hreach). exists (S k).
  split; [lia|]. by eapply reach_next.
Qed.

Lemma tagged_step c b u v d r :
  follows config c u v -> tagged config c b v (S d) r -> tagged config c (S b) u d r.
Proof.
  unfold tagged. intros Hfollow (k & Hk & Hdepth & Hcat & Hreach). exists (S k).
  split; [lia|]. split; [by rewrite Hdepth; f_equal; lia|].
  split; [done|]. by eapply reach_next.
Qed.

Lemma truthy_inv (o : option pystr) :
  truthy o = true -> exists html, o = Some html /\ default [] o = html.
Proof. destruct o as [[|x html]|]; [done| |done]. eauto. Qed.

(** The page itself: its record, if kept, and the request for it. *)
Lemma crawl_first_grown b u c d self html :
  grown (tagged config c b u d) (near config c b u) self
    (set_scraped_data (scraped_data self ++ page_records u c (Some d) html)
       (log (Fetch u) (add_visited u self))).
Proof.
  exists (page_records u c (Some d) html), [Fetch u].
  split; [done|]. split; [done|]. split.
  - eapply Forall_impl; [apply page_records_tags|].
    intros r (<- & Hd & Hc). exists O. rewrite Nat.add_0_r.
    split; [lia|]. split; [done|]. split; [done|constructor].
  - simpl. constructor; [|constructor]. exists O. split; [lia|constructor].
Qed.

(** What a crawl below [u] adds lies within [b] links of [u]. *)
Lemma crawl_below_near b u c d self :
  grown (tagged config c b u d) (near config c b u) self
    (crawl_below config b u c d self).
Proof.
  revert u d self. induction b as [|b IH]; intros u d self;
    rewrite crawl_below_eq; (case_bool_decide; [reflexivity|]); cbv zeta.
  - destruct (truthy _); apply crawl_first_grown.
  - destruct (truthy _) eqn:Htruthy; [|apply crawl_first_grown].
    etrans; [apply crawl_first_grown|].
    apply truthy_inv in Htruthy as (page & Hpage & Hdefault).
    rewrite Hdefault.
    apply for_each_rel_in; [apply _..|].
    intros link s Hlink.
    destruct (_should_follow_link config link c) eqn:Hfollow; [|reflexivity].
    assert (follows config c u link) as Hstep
      by (by eapply (follows_link config c u link (length (trace self)) page)).
    etrans; [|apply grown_sleep].
    eapply grown_mono; [| |apply IH].
    + intros r. by apply tagged_step.
    + intros v. by apply near_step.
Qed.

Lemma follows_same_domain c v w :
  follows config c v w ->
  (netloc w = netloc (base_url config) \/ netloc w = [])
  /\ _should_follow_link config w c = true.
Proof.
  intros [u' w' n html _ Hlink Hfollow]. split; [|done].
  unfold extract_links in Hlink.
  apply list_set_elem, collect_links_elem in Hlink as (href & _ & _ & _ & Hdom).
  by apply is_same_domain_spec.
Qed.

Lemma not_named (page_name name : pystr) :
  page_name <> name -> pystr_eqb page_name name = false.
Proof. intros Hne. unfold pystr_eqb. by rewrite bool_decide_eq_false_2. Qed.

End Fallback.

(** C5. A category outside the five names is crawled by
    [_crawl_page_and_subpages] from depth 0 to depth 2. Every record it keeps
    carries the category and a depth of at most 2, which is the number of
    links followed from the entry page to the page of the record; every page
    it requests lies as near; and every link followed is one that
    [extract_links] returned, so of the base host, and that
    [_should_follow_link] admits, which for such a category means a URL that
    starts with the base URL and is not a media file. *)
Theorem fallback_stays_shallow `{World} (config : Config) (page_name u : pystr)
    (self : Crawler) :
  page_name ∉ [py "idea"; py "posture"; py "results"; py "kaiken"; py "column"] ->
  crawl_category config page_name u self
  = _crawl_page_and_subpages config u page_name 2 0 self
  /\ (exists new ext,
        scraped_data (crawl_category config page_name u self)
        = scraped_data self ++ new
        /\ trace (crawl_category config page_name u self) = trace self ++ ext
        /\ Forall (fun r =>
             exists k, (k <= 2)%nat /\ depth r = Some k
               /\ category r = Some page_name
               /\ reach config page_name k u (url r)) new
        /\ Forall (fun v => exists k, (k <= 2)%nat /\ reach config page_name k u v)
             (fetched ext))
  /\ (forall v w, follows config page_name v w ->
        (netloc w = netloc (base_url config) \/ netloc w = [])
        /\ _should_follow_link config w page_name = true)
  /\ (forall link,
        _should_follow_link config link page_name
        = startswith link (base_url config)
          && negb (existsb (fun ext => endswith (lower link) ext) media_extensions)).
Proof.
  intros Hname.
  rewrite !not_elem_of_cons in Hname.
  destruct Hname as (Hidea & Hposture & Hresults & Hkaiken & Hcolumn & _).
  assert (crawl_category config page_name u self
          = _crawl_page_and_subpages config u page_name 2 0 self) as Hdispatch.
  { unfold crawl_category. by rewrite !not_named. }
  split; [done|]. rewrite Hdispatch. split; [|split].
  - destruct (crawl_below_near config 2 u page_name 0 self)
      as (new & ext & Hdata & Htrace & Hnew & Hext).
    exists new, ext. repeat split; [done|done|..].
    + eapply Forall_impl; [exact Hnew|]. unfold tagged.
      by intros r (k & ? & ? & ? & ?); exists k.
    + done.
  - apply follows_same_domain.
  - intros link. unfold _should_follow_link. rewrite !not_named by done.
    destruct (startswith link (base_url config)); [|done]. cbn [negb andb].
    by destruct (existsb _ media_extensions).
Qed.

Lemma fallback_stays_shallow_witness :
  crawl_category site_config (py "news") (site_url "column.html") WebCrawler
  = _crawl_page_and_subpages site_config (site_url "column.html") (py "news") 2 0
      WebCrawler.
Proof.
  refine (proj1 (fallback_stays_shallow site_config (py "news")
                   (site_url "column.html") WebCrawler _)).
  rewrite !not_elem_of_cons.
  repeat split; try (intros Heq; vm_compute in Heq; discriminate).
  apply not_elem_of_nil.
Defined.

Lemma extract_links_same_domain_witness :
  NoDup (extract_links site_root (py "<title>results</title>") (site_url "results.html"))
  /\ netloc (site_url "results_japan7.html") = netloc site_root.
Proof.
  destruct (extract_links_same_domain site_root (py "<title>results</title>")
              (site_url "results.html")) as (Hnodup & Hlinks & _).
  split; [exact Hnodup|].
  destruct (Hlinks (site_url "results_japan7.html")) as [[Hhost|Hnone] _].
  - vm_compute. apply list_elem_of_here.
  - exact Hhost.
  - vm_compute in Hnone. discriminate.
Defined.

(** * Further properties *)

(** ** [_clean_text] as whitespace normalisation *)

#[local] Arguments isspace : simpl never.

Lemma rstrip_snoc text c :
  rstrip (text ++ [c]) = if isspace c then rstrip text else text ++ [c].
Proof.
  unfold rstrip. rewrite rev_unit. simpl.
  destruct (isspace c); [done|]. simpl. by rewrite rev_involutive.
Qed.

Lemma rstrip_cons c text :
  rstrip (c :: text)
  = if forallb isspace (c :: text) then [] else c :: rstrip text.
Proof.
  revert c. induction text as [|x text IH] using rev_ind; intros c.
  - unfold rstrip. simpl. by destruct (isspace c).
  - rewrite app_comm_cons, !rstrip_snoc, IH.
    cbn [forallb]. rewrite forallb_app. cbn [forallb].
    destruct (isspace x); [by rewrite !andb_true_r|].
    by rewrite !andb_false_r.
Qed.

Lemma rstrip_nil_iff text : rstrip text = [] <-> forallb isspace text = true.
Proof.
  induction text as [|c text IH]; [done|].
  rewrite rstrip_cons. by destruct (forallb isspace (c :: text)).
Qed.

(** In a run of whitespace the leading whitespace of the rest is dropped. *)
Lemma sub_runs_in_run text :
  sub_runs isspace [SPACE] true text
  = sub_runs isspace [SPACE] false (lstrip text).
Proof.
  induction text as [|c text IH]; [done|]. simpl.
  destruct (isspace c) eqn:Hc; [done|]. simpl. by rewrite Hc.
Qed.

Lemma lstrip_sub_runs_lstrip text :
  lstrip (sub_runs isspace [SPACE] false (lstrip text))
  = sub_runs isspace [SPACE] false (lstrip text).
Proof.
  induction text as [|c text IH]; [done|]. simpl.
  destruct (isspace c) eqn:Hc; [done|]. simpl. by rewrite Hc; simpl; rewrite Hc.
Qed.

Lemma lstrip_sub_runs text :
  lstrip (sub_runs isspace [SPACE] false text)
  = sub_runs isspace [SPACE] false (lstrip text).
Proof.
  destruct text as [|c text]; [done|]. cbn [sub_runs lstrip].
  destruct (isspace c) eqn:Hc; cbn [app lstrip].
  - change (isspace SPACE) with true. cbn iota.
    by rewrite sub_runs_in_run, lstrip_sub_runs_lstrip.
  - cbn [sub_runs]. by rewrite Hc.
Qed.

Lemma split_go_words word text :
  forallb (fun c => negb (isspace c)) word = true ->
  Forall is_word (split_go word text).
Proof.
  revert word. induction text as [|c text IH]; intros word Hword; simpl.
  - destruct word; [constructor|]. by repeat constructor.
  - destruct (isspace c) eqn:Hc.
    + destruct word as [|x word]; [by apply IH|].
      constructor; [done|by apply IH].
    + apply IH. rewrite forallb_app, Hword. simpl. by rewrite Hc.
Qed.

Lemma join_cons_cons sep p q ps :
  join sep (p :: q :: ps) = p ++ sep ++ join sep (q :: ps).
Proof. done. Qed.

Lemma join_nonempty sep p ps : p <> [] -> join sep (p :: ps) <> [].
Proof.
  intros Hp. destruct ps; simpl; [done|]. by destruct p.
Qed.

(** The two readings of a text, word by word and run by run, agree. *)
Lemma join_split_go text :
  (forall word, word <> [] ->
     join [SPACE] (split_go word text)
     = word ++ rstrip (sub_runs isspace [SPACE] false text))
  /\ join [SPACE] (split_go [] text) = rstrip (sub_runs isspace [SPACE] true text).
Proof.
  induction text as [|c text [IHword IHnone]].
  - split; [|done]. intros word Hword. simpl. destruct word; [done|].
    by rewrite app_nil_r.
  - split.
    + intros word Hword. simpl. destruct (isspace c) eqn:Hc.
      * destruct word as [|x word]; [done|].
        change ([SPACE] ++ sub_runs isspace [SPACE] true text)
          with (SPACE :: sub_runs isspace [SPACE] true text).
        rewrite rstrip_cons. cbn [forallb].
        change (isspace SPACE) with true. cbn [andb].
        destruct (split_go [] text) as [|p ps] eqn:Hsplit.
        -- simpl in IHnone. symmetry in IHnone.
           apply rstrip_nil_iff in IHnone. rewrite IHnone. simpl.
           by rewrite app_nil_r.
        -- assert (rstrip (sub_runs isspace [SPACE] true text) <> []) as Hne.
           { rewrite <- IHnone. apply join_nonempty.
             pose proof (split_go_words [] text eq_refl) as Hwords.
             rewrite Hsplit in Hwords. by apply Forall_cons in Hwords as [[? _] _]. }
           destruct (forallb isspace (sub_runs isspace [SPACE] true text)) eqn:Hall.
           { by apply rstrip_nil_iff in Hall. }
           rewrite join_cons_cons, IHnone. done.
      * rewrite IHword by (by destruct word).
        rewrite rstrip_cons. cbn [forallb]. rewrite Hc. cbn [andb].
        by rewrite <- app_assoc.
    + simpl. destruct (isspace c) eqn:Hc; [done|].
      rewrite (IHword [c]) by done.
      rewrite rstrip_cons. cbn [forallb]. by rewrite Hc.
Qed.

Lemma strip_sub_runs_join (text : pystr) :
  strip (re_sub_plus isspace [SPACE] text) = join [SPACE] (split text).
Proof.
  unfold strip, re_sub_plus, split.
  rewrite lstrip_sub_runs, <- sub_runs_in_run.
  symmetry. apply join_split_go.
Qed.

(** X1. [_clean_text] is [' '.join(text.split())]: the words of the text,
    each of them non-empty and free of whitespace, with one space between
    two of them. *)
Theorem clean_text_join_split (text : pystr) :
  _clean_text text = join [SPACE] (split text)
  /\ Forall is_word (split text).
Proof.
  split.
  - rewrite clean_text_eq. apply strip_sub_runs_join.
  - by apply split_go_words.
Qed.

Lemma split_go_prefix p rest word :
  forallb (fun c => negb (isspace c)) p = true ->
  split_go word (p ++ rest) = split_go (word ++ p) rest.
Proof.
  revert word. induction p as [|c p IH]; intros word Hp; simpl.
  - by rewrite app_nil_r.
  - simpl in Hp. apply andb_prop in Hp as [Hc Hp].
    apply negb_true_iff in Hc. rewrite Hc, IH by done.
    by rewrite <- app_assoc.
Qed.

Lemma split_join words :
  Forall is_word words -> split (join [SPACE] words) = words.
Proof.
  unfold split. induction words as [|p [|q words] IH]; intros Hwords.
  - done.
  - apply Forall_cons in Hwords as [[Hne Hp] _]. simpl.
    rewrite <- (app_nil_r p) at 1. rewrite split_go_prefix by done. simpl.
    by destruct p.
  - apply Forall_cons in Hwords as [[Hne Hp] Hrest].
    rewrite join_cons_cons, split_go_prefix by done. cbn [app split_go].
    change (isspace SPACE) with true. cbn iota.
    rewrite IH by done. by destruct p.
Qed.

(** X2. Cleaning a cleaned text changes nothing. *)
Theorem clean_text_idempotent (text : pystr) :
  _clean_text (_clean_text text) = _clean_text text.
Proof.
  rewrite !clean_text_eq, !strip_sub_runs_join.
  by rewrite split_join by (by apply split_go_words).
Qed.

Lemma remove_whitespace_app a b :
  remove_whitespace (a ++ b) = remove_whitespace a ++ remove_whitespace b.
Proof. apply List.filter_app. Qed.

Lemma remove_whitespace_word p :
  forallb (fun c => negb (isspace c)) p = true -> remove_whitespace p = p.
Proof.
  induction p as [|c p IH]; [done|]. simpl.
  intros [Hc Hp]%andb_prop. rewrite Hc. by rewrite IH.
Qed.

Lemma remove_whitespace_join words :
  Forall is_word words -> remove_whitespace (join [SPACE] words) = concat words.
Proof.
  induction words as [|p [|q words] IH]; intros Hwords.
  - done.
  - apply Forall_cons in Hwords as [[_ Hp] _]. simpl.
    by rewrite app_nil_r, remove_whitespace_word.
  - apply Forall_cons in Hwords as [[_ Hp] Hrest].
    rewrite join_cons_cons, !remove_whitespace_app, IH by done.
    by rewrite remove_whitespace_word.
Qed.

Lemma remove_whitespace_clean text :
  remove_whitespace (_clean_text text) = remove_whitespace text.
Proof.
  rewrite clean_text_eq, strip_sub_runs_join.
  rewrite remove_whitespace_join by (by apply split_go_words).
  apply (split_go_concat [] text).
Qed.

(** X3. Cleaning keeps the characters that are not whitespace, in their
    order, so the [word_count] of a page is the number of such characters in
    the text taken from the page, before it is cleaned. *)
Theorem clean_text_keeps_characters (text : pystr) :
  remove_whitespace (_clean_text text) = remove_whitespace text
  /\ char_count (_clean_text text) = length (remove_whitespace text).
Proof.
  split; [apply remove_whitespace_clean|].
  by rewrite char_count_spec, remove_whitespace_clean.
Qed.

Lemma clean_text_nil_iff text :
  _clean_text text = [] <-> remove_whitespace text = [].
Proof.
  rewrite <- (remove_whitespace_clean text), clean_text_eq, strip_sub_runs_join.
  pose proof (split_go_words [] text eq_refl) as Hwords.
  fold (split text) in Hwords.
  destruct (split text) as [|p ps]; [done|].
  apply Forall_cons in Hwords as [[Hne Hp] Hrest].
  split.
  - intros Hnil. by apply join_nonempty in Hnil.
  - rewrite remove_whitespace_join by (by constructor).
    simpl. by destruct p.
Qed.

(** X4. The [word_count] that [extract_content] reports is 0 exactly when
    the [content] is the empty string: a content made of whitespace alone
    does not occur. *)
Theorem word_count_zero_iff `{World} (html u : pystr) :
  word_count (extract_content html u) = 0%nat
  <-> content (extract_content html u) = [].
Proof.
  destruct (content_of_extract html u) as [raw Hraw].
  assert (word_count (extract_content html u)
          = char_count (content (extract_content html u))) as -> by done.
  rewrite Hraw, char_count_spec, remove_whitespace_clean, clean_text_nil_iff.
  by destruct (remove_whitespace raw).
Qed.

(** ** Removing scripts and styles *)

Lemma elem_of_flat_map {A B} (f : A -> list B) (l : list A) y :
  y ∈ flat_map f l <-> exists x, x ∈ l /\ y ∈ f x.
Proof.
  rewrite list_elem_of_In, in_flat_map. split.
  - intros (x & Hx & Hy). exists x. by rewrite !list_elem_of_In.
  - intros (x & Hx & Hy). exists x. by rewrite <- !list_elem_of_In.
Qed.

Lemma subtree_elem n m : n ∈ subtree m -> n = m \/ n ∈ descendants m.
Proof.
  destruct m as [s|t a cs]; simpl.
  - intros ->%list_elem_of_singleton. by left.
  - intros [->|Hn]%elem_of_cons; [by left|by right].
Qed.

Lemma named_decompose names c : named names (decompose names c) = named names c.
Proof. by destruct c. Qed.

(** The children that stay are the cleaned children that had none of the
    names. *)
Lemma decompose_children names t a cs m :
  m ∈ children (decompose names (Tag t a cs)) ->
  exists c, c ∈ cs /\ named names c = false /\ m = decompose names c.
Proof.
  simpl. induction cs as [|c cs IH]; [by intros ?%elem_of_nil|].
  fold (named names c). destruct (named names c) eqn:Hc.
  - intros (c' & ? & ?)%IH. exists c'. split; [by apply list_elem_of_further|done].
  - intros [->|Hm]%elem_of_cons.
    + exists c. split; [apply list_elem_of_here|done].
    + destruct (IH Hm) as (c' & ? & ?). exists c'.
      split; [by apply list_elem_of_further|done].
Qed.

(** X5. After [for element in soup(names): element.decompose()] no tag with
    one of the names is left anywhere in the document, and a document that
    had none is unchanged: what [extract_content] reads holds no [script],
    [style], [noscript] or [iframe]. *)
Theorem decompose_removes (names : list pystr) (soup : node) :
  (forall n, n ∈ descendants (decompose names soup) -> named names n = false)
  /\ ((forall n, n ∈ descendants soup -> named names n = false) ->
      decompose names soup = soup).
Proof.
  induction soup as [s|t a cs IH] using node_induction.
  - split; [by intros n ?%elem_of_nil|done].
  - split.
    + intros n (m & Hm & Hn)%elem_of_flat_map.
      apply decompose_children in Hm as (c & Hc & Hnamed & ->).
      eapply Forall_forall in IH as [IHc _]; [|exact Hc].
      apply subtree_elem in Hn as [->|Hn]; [|by apply IHc].
      by rewrite named_decompose.
    + intros Hnone. simpl. f_equal.
      induction cs as [|c cs IHcs]; [done|].
      apply Forall_cons in IH as [[_ IHc] IH].
      assert (named names c = false) as Hc.
      { apply Hnone. simpl. apply elem_of_app. left.
        destruct c; apply list_elem_of_here. }
      fold (named names c). rewrite Hc. f_equal.
      * apply IHc. intros n Hn. apply Hnone. simpl. apply elem_of_app. left.
        destruct c as [s|t' a' cs']; [by apply elem_of_nil in Hn|].
        by apply list_elem_of_further.
      * apply IHcs; [done|]. intros n Hn. apply Hnone. simpl.
        apply elem_of_app. by right.
Qed.

Lemma decompose_removes_witness :
  decompose [py "script"; py "style"; py "noscript"; py "iframe"]
    (article_page [] date_text)
  = article_page [] date_text.
Proof.
  apply (proj2 (decompose_removes [py "script"; py "style"; py "noscript"; py "iframe"]
                  (article_page [] date_text))).
  intros n Hn. apply list_elem_of_In in Hn. apply negb_true_iff. revert n Hn.
  apply (proj1 (forallb_forall (fun n => negb (named _ n)) _)).
  vm_compute. reflexivity.
Defined.

(** ** What a strategy adds *)

Lemma for_each_pair_in {A B S} (I : B -> Prop) (R : relation S)
    `{!Reflexive R} `{!Transitive R}
    (items : list A) (body : A -> B * S -> B * S) (b : B) (s : S) :
  (forall x b s, x ∈ items -> I b ->
     I (fst (body x (b, s))) /\ R s (snd (body x (b, s)))) ->
  I b ->
  I (fst (for_each items body (b, s))) /\ R s (snd (for_each items body (b, s))).
Proof.
  revert b s. induction items as [|x rest IH]; intros b s Hbody Hb; simpl.
  - split; [done|reflexivity].
  - destruct (Hbody x b s) as [Hb' Hs']; [apply list_elem_of_here|done|].
    destruct (body x (b, s)) as [b' s']. simpl in *.
    destruct (IH b' s') as [Hb'' Hs'']; [|done|].
    + intros y b0 s0 Hy. by apply Hbody, list_elem_of_further.
    + split; [done|]. by transitivity s'.
Qed.

Section Strategies.
Context `{World} (config : Config).
Implicit Types (self s : Crawler) (u v c : pystr) (P : PageRecord -> Prop)
  (Q : pystr -> Prop).

Local Abbreviation now_at n u := (returned (_fetch_page (session_get n) u)).

(** A record of category [c] whose URL satisfies [Q]. *)
Local Abbreviation kept_by c Q := (fun r => Q (url r) /\ record_of c r).

#[local] Instance crawls_refl P Q : Reflexive (crawls P Q).
Proof. intros s. exists [], []. by rewrite !app_nil_r. Qed.

#[local] Instance crawls_trans P Q : Transitive (crawls P Q).
Proof.
  intros s1 s2 s3 (new1 & ext1 & Hd1 & Ht1 & HP1 & HQ1 & Hw1 & Hs1 & Hf1 & Hfs1)
    (new2 & ext2 & Hd2 & Ht2 & HP2 & HQ2 & Hw2 & Hs2 & Hf2 & Hfs2).
  exists (new1 ++ new2), (ext1 ++ ext2).
  rewrite Hd2, Hd1, Ht2, Ht1, !app_assoc, fetched_app, !Forall_app, existsb_app.
  rewrite Hw1, Hw2, Hs2, Hs1, Hf2, Hf1, Hfs2, Hfs1. done.
Qed.

Lemma crawls_mono P P' Q Q' s s' :
  (forall r, P r -> P' r) -> (forall v, Q v -> Q' v) ->
  crawls P Q s s' -> crawls P' Q' s s'.
Proof.
  intros HP HQ (new & ext & ? & ? & Hnew & Hext & ?). exists new, ext.
  split; [done|]. split; [done|].
  split; [by eapply Forall_impl|]. split; [by eapply Forall_impl|done].
Qed.

Lemma crawls_sleep P Q s : crawls P Q s (sleep config s).
Proof. exists [], [Sleep (delay_between_requests config)]. by rewrite app_nil_r. Qed.

Lemma crawls_refetch P Q u s : Q u -> crawls P Q s (log (Fetch u) s).
Proof.
  intros Hu. exists [], [Fetch u]. rewrite app_nil_r. simpl.
  repeat split; try done. by repeat constructor.
Qed.

(** What is kept of a page is made from the page that came back. *)
Lemma page_records_of u c d n :
  Forall (fun r => url r = u /\ record_of c r) (page_records u c d (now_at n u)).
Proof.
  unfold page_records, kept.
  destruct (now_at n u) as [[|x html]|] eqn:Hhtml; [done| |done].
  cbn [truthy]. change (default [] (Some (x :: html))) with (x :: html).
  destruct d as [d|]; (destruct (_ <? _)%nat eqn:Hgate; [|done]);
    apply Nat.ltb_lt in Hgate; (constructor; [|done]); (split; [done|]);
    exists n, (x :: html); (split; [done|]); (split; [done|]); (split; [done|]).
  - right. by exists d.
  - by left.
Qed.

Lemma crawls_first Q u c d s n :
  Q u ->
  crawls (kept_by c Q) Q s
    (set_scraped_data (scraped_data s ++ page_records u c d (now_at n u))
       (log (Fetch u) (add_visited u s))).
Proof.
  intros Hu. exists (page_records u c d (now_at n u)), [Fetch u].
  split; [done|]. split; [done|]. split.
  - eapply Forall_impl; [apply page_records_of|]. by intros r [-> ?].
  - simpl. repeat split; try done. by repeat constructor.
Qed.

Lemma crawls_single_page Q u c s :
  Q u -> crawls (kept_by c Q) Q s (_crawl_single_page u c s).
Proof.
  intros Hu. rewrite crawl_single_page_eq. case_bool_decide; [reflexivity|].
  by apply crawls_first.
Qed.

Lemma crawls_links Q links c s :
  (forall l, l ∈ links -> Q l) ->
  crawls (kept_by c Q) Q s (crawl_links config links c s).
Proof.
  intros Hlinks. unfold crawl_links. apply for_each_rel_in; [apply _..|].
  intros l s' Hl. case_bool_decide; [reflexivity|].
  etrans; [apply crawls_single_page; by apply Hlinks|apply crawls_sleep].
Qed.

Lemma crawls_then_fetch Q u c s :
  Q u -> crawls (kept_by c Q) Q s (log (Fetch u) (_crawl_single_page u c s)).
Proof.
  intros Hu. etrans; [by apply crawls_single_page|by apply crawls_refetch].
Qed.

Lemma in_subpage_links base html cur pattern l :
  l ∈ extract_subpage_links base html cur (Some pattern) ->
  l ∈ extract_links base html cur
  /\ (pattern <> [] -> re_search pattern false l = true).
Proof.
  unfold extract_subpage_links. destruct pattern as [|x pattern]; simpl.
  - by intros ?.
  - intros [? ?]%elem_of_filter'. done.
Qed.

Lemma crawls_results_pages Q u s :
  Q u ->
  (forall html l,
     l ∈ extract_subpage_links (base_url config) html u
           (Some (py "results_[^/]+\.html")) -> Q l) ->
  crawls (kept_by (py "results") Q) Q s (_crawl_results_pages config u s).
Proof.
  intros Hu Hlinks. unfold _crawl_results_pages, fetch.
  etrans; [by apply (crawls_then_fetch Q u (py "results"))|].
  destruct (negb _); [reflexivity|]. apply crawls_links. apply Hlinks.
Qed.

Lemma crawls_list_pages Q list_links c pattern acc s :
  (forall l, l ∈ list_links -> Q l) ->
  (forall html cur l,
     l ∈ extract_subpage_links (base_url config) html cur (Some pattern) -> Q l) ->
  Forall Q acc ->
  Forall Q (fst (process_list_pages config list_links c pattern acc s))
  /\ crawls (kept_by c Q) Q s
       (snd (process_list_pages config list_links c pattern acc s)).
Proof.
  intros Hlist Hdetail Hacc. unfold process_list_pages.
  apply (for_each_pair_in (Forall Q) (crawls (kept_by c Q) Q)); [|done].
  intros list_url acc' s' Hin Hacc'. unfold fetch.
  case_bool_decide; [split; [done|reflexivity]|].
  destruct (truthy _); simpl.
  - split.
    + apply Forall_app. split; [done|]. apply Forall_forall. apply Hdetail.
    + etrans; [apply crawls_then_fetch; by apply Hlist|apply crawls_sleep].
  - split; [done|]. apply crawls_then_fetch. by apply Hlist.
Qed.

Lemma crawls_column_pages Q u s :
  Q u ->
  (forall html cur l,
     l ∈ extract_subpage_links (base_url config) html cur
           (Some (py "column_list\d+\.html")) -> Q l) ->
  (forall html cur l,
     l ∈ extract_subpage_links (base_url config) html cur
           (Some (py "column_detail\d+\.html")) -> Q l) ->
  crawls (kept_by (py "column") Q) Q s (_crawl_column_pages config u s).
Proof.
  intros Hu Hlist Hdetail. unfold _crawl_column_pages, fetch.
  etrans; [by apply (crawls_then_fetch Q u (py "column"))|].
  destruct (negb _); [reflexivity|].
  match goal with
  | |- context [process_list_pages ?cf ?l ?c ?p ?a ?s0] =>
      destruct (crawls_list_pages Q l c p a s0) as [Hacc Hrun];
        [by apply Hlist|done|apply Forall_forall; by apply Hdetail|];
      destruct (process_list_pages cf l c p a s0) as [details s3]
  end.
  simpl in *. etrans; [exact Hrun|]. apply crawls_links.
  intros l Hl. apply (proj1 (list_set_elem details l)) in Hl.
  by apply (proj1 (Forall_forall Q details) Hacc).
Qed.

Lemma crawls_kaiken_pages Q u s :
  Q u ->
  (forall html cur l,
     l ∈ extract_subpage_links (base_url config) html cur
           (Some (py "kaiken_list\d+\.html")) -> Q l) ->
  (forall html cur l,
     l ∈ extract_subpage_links (base_url config) html cur
           (Some (py "kaiken_detail\d+\.html")) -> Q l) ->
  crawls (kept_by (py "kaiken") Q) Q s (_crawl_kaiken_pages config u s).
Proof.
  intros Hu Hlist Hdetail. unfold _crawl_kaiken_pages, fetch.
  etrans; [by apply (crawls_then_fetch Q u (py "kaiken"))|].
  destruct (negb _); [reflexivity|].
  match goal with
  | |- context [process_list_pages ?cf ?l ?c ?p ?a ?s0] =>
      destruct (crawls_list_pages Q l c p a s0) as [Hacc Hrun];
        [by apply Hlist|done|done|];
      destruct (process_list_pages cf l c p a s0) as [details s3]
  end.
  simpl in *. etrans; [exact Hrun|]. apply crawls_links.
  intros l Hl. apply (proj1 (list_set_elem details l)) in Hl.
  by apply (proj1 (Forall_forall Q details) Hacc).
Qed.

Lemma crawls_below b u c d s :
  crawls (kept_by c (fun _ => True)) (fun _ => True) s
    (crawl_below config b u c d s).
Proof.
  revert u d s. induction b as [|b IH]; intros u d s;
    rewrite crawl_below_eq; (case_bool_decide; [reflexivity|]); cbv zeta.
  - by destruct (truthy _); apply (crawls_first (fun _ => True)).
  - destruct (truthy _); [|by apply (crawls_first (fun _ => True))].
    etrans; [by apply (crawls_first (fun _ => True))|].
    apply (for_each_rel (crawls _ _)). intros link s'.
    destruct (_should_follow_link _ _ _); [|reflexivity].
    etrans; [apply IH|apply crawls_sleep].
Qed.

Lemma crawls_category page_name u s :
  crawls (kept_by page_name (fun _ => True)) (fun _ => True) s
    (crawl_category config page_name u s).
Proof.
  unfold crawl_category, _crawl_page_and_subpages.
  change (2 <? 0)%nat with false. cbv iota.
  destruct (_ || _); [by apply (crawls_single_page (fun _ => True))|].
  destruct (pystr_eqb page_name (py "results")) eqn:Hresults.
  { apply bool_decide_eq_true in Hresults as ->.
    by apply (crawls_results_pages (fun _ => True)). }
  destruct (pystr_eqb page_name (py "kaiken")) eqn:Hkaiken.
  { apply bool_decide_eq_true in Hkaiken as ->.
    by apply (crawls_kaiken_pages (fun _ => True)). }
  destruct (pystr_eqb page_name (py "column")) eqn:Hcolumn.
  { apply bool_decide_eq_true in Hcolumn as ->.
    by apply (crawls_column_pages (fun _ => True)). }
  apply crawls_below.
Qed.

End Strategies.

Lemma record_of_category `{World} c r : record_of c r -> category r = Some c.
Proof. intros (n & html & _ & _ & _ & [->|[d ->]]); done. Qed.

(** X6. Whatever the category, its strategy only appends to [scraped_data]
    and to the effects: it writes no file and leaves [timestamp],
    [saved_files] and the files alone. Every record it appends carries the
    name of the category and a [word_count] above 100, and is what
    [extract_content] makes of a non-empty page that a request for the URL
    of the record returned. *)
Theorem strategy_keeps_fetched_pages `{World} (config : Config)
    (page_name u : pystr) (self : Crawler) :
  exists new ext,
    scraped_data (crawl_category config page_name u self) = scraped_data self ++ new
    /\ trace (crawl_category config page_name u self) = trace self ++ ext
    /\ Forall (fun r => category r = Some page_name /\ record_of page_name r) new
    /\ existsb is_write ext = false
    /\ timestamp (crawl_category config page_name u self) = timestamp self
    /\ saved_files (crawl_category config page_name u self) = saved_files self
    /\ fs (crawl_category config page_name u self) = fs self.
Proof.
  destruct (crawls_category config page_name u self)
    as (new & ext & Hdata & Htrace & Hnew & _ & Hrest).
  exists new, ext. split; [done|]. split; [done|]. split; [|done].
  eapply Forall_impl; [exact Hnew|]. intros r [_ Hr].
  split; [by eapply record_of_category|done].
Qed.

(** A string literal of the source is not the empty string. *)
Ltac literal_nonempty :=
  let E := fresh in intros E; vm_compute in E; discriminate E.

Lemma subpage_link_listed `{World} config html cur pattern l :
  pattern <> [] ->
  l ∈ extract_subpage_links (base_url config) html cur (Some pattern) ->
  (netloc l = netloc (base_url config) \/ netloc l = [])
  /\ re_search pattern false l = true.
Proof.
  intros Hpattern [Hlink Hmatch]%in_subpage_links. split; [|by apply Hmatch].
  unfold extract_links in Hlink.
  apply list_set_elem, collect_links_elem in Hlink as (href & _ & _ & _ & Hdom).
  by apply is_same_domain_spec.
Qed.

(** X7. The strategies for results, kaiken and column request, and keep
    records of, nothing but their main page and links of the base host (or
    without host) that match their patterns: [results_*.html] for results,
    the list and detail patterns for kaiken and for column. *)
Theorem list_strategies_stay_on_pattern `{World} (config : Config) (u : pystr)
    (self : Crawler) :
  crawls
    (fun r => listed config [py "results_[^/]+\.html"] u (url r))
    (listed config [py "results_[^/]+\.html"] u)
    self (_crawl_results_pages config u self)
  /\ crawls
       (fun r => listed config
                   [py "kaiken_list\d+\.html"; py "kaiken_detail\d+\.html"] u (url r))
       (listed config [py "kaiken_list\d+\.html"; py "kaiken_detail\d+\.html"] u)
       self (_crawl_kaiken_pages config u self)
  /\ crawls
       (fun r => listed config
                   [py "column_list\d+\.html"; py "column_detail\d+\.html"] u (url r))
       (listed config [py "column_list\d+\.html"; py "column_detail\d+\.html"] u)
       self (_crawl_column_pages config u self).
Proof.
  split; [|split].
  - eapply crawls_mono; [| |apply (crawls_results_pages config
        (listed config [py "results_[^/]+\.html"] u))].
    + by intros r [? _].
    + done.
    + by left.
    + intros html l Hl. right.
      apply subpage_link_listed in Hl as [? ?]; [|literal_nonempty].
      split; [done|]. eexists. split; [apply list_elem_of_here|done].
  - eapply crawls_mono; [| |apply (crawls_kaiken_pages config
        (listed config [py "kaiken_list\d+\.html"; py "kaiken_detail\d+\.html"] u))].
    + by intros r [? _].
    + done.
    + by left.
    + intros html cur l Hl. right.
      apply subpage_link_listed in Hl as [? ?]; [|literal_nonempty].
      split; [done|]. eexists. split; [apply list_elem_of_here|done].
    + intros html cur l Hl. right.
      apply subpage_link_listed in Hl as [? ?]; [|literal_nonempty].
      split; [done|]. eexists.
      split; [apply list_elem_of_further, list_elem_of_here|done].
  - eapply crawls_mono; [| |apply (crawls_column_pages config
        (listed config [py "column_list\d+\.html"; py "column_detail\d+\.html"] u))].
    + by intros r [? _].
    + done.
    + by left.
    + intros html cur l Hl. right.
      apply subpage_link_listed in Hl as [? ?]; [|literal_nonempty].
      split; [done|]. eexists. split; [apply list_elem_of_here|done].
    + intros html cur l Hl. right.
      apply subpage_link_listed in Hl as [? ?]; [|literal_nonempty].
      split; [done|]. eexists.
      split; [apply list_elem_of_further, list_elem_of_here|done].
Qed.

(** ** A whole run *)

Lemma filter_all {A} (f : A -> bool) (l : list A) :
  Forall (fun x => f x = true) l ->
  List.filter f l = l /\ List.filter (fun x => negb (f x)) l = [].
Proof.
  induction 1 as [|x l Hx _ [IH1 IH2]]; [done|]. simpl.
  by rewrite Hx, IH1, IH2.
Qed.

Lemma no_write_written ext :
  existsb is_write ext = false ->
  flat_map written ext = [] /\ written_paths ext = [].
Proof.
  induction ext as [|e ext IH]; [done|]. simpl.
  intros [He Hext]%orb_false_elim. destruct (IH Hext) as [IH1 IH2].
  unfold written_paths in *. simpl. rewrite IH1, IH2. by destruct e.
Qed.

Lemma no_write_files_ok `{World} data_dir names t ext :
  existsb is_write ext = false -> Forall (category_file_ok data_dir names t) ext.
Proof.
  induction ext as [|e ext IH]; [done|]. simpl.
  intros [He Hext]%orb_false_elim. constructor; [by destruct e|by apply IH].
Qed.

Lemma category_file_ok_more `{World} data_dir names names' t e :
  (forall name, name ∈ names -> name ∈ names') ->
  category_file_ok data_dir names t e -> category_file_ok data_dir names' t e.
Proof.
  intros Hsub. destruct e; [done|done|]. simpl.
  intros (? & name & ? & ? & ?). split; [done|]. exists name. auto.
Qed.

Section Runs.
Context `{World} (config : Config) (data_dir : pystr).
Implicit Types (self s : Crawler) (t : Z).

(** One category of a run that started with an empty buffer: what is kept
    is written at once, counted, and gone from the buffer. *)
Lemma crawl_target_run target total s t :
  scraped_data s = [] -> timestamp s = Some t ->
  exists ext,
    trace (snd (crawl_target config data_dir target (total, s))) = trace s ++ ext
    /\ scraped_data (snd (crawl_target config data_dir target (total, s))) = []
    /\ timestamp (snd (crawl_target config data_dir target (total, s))) = Some t
    /\ saved_files (snd (crawl_target config data_dir target (total, s)))
       = saved_files s ++ written_paths ext
    /\ fst (crawl_target config data_dir target (total, s))
       = (total + length (flat_map written ext))%nat
    /\ Forall (category_file_ok data_dir [fst target] t) ext.
Proof.
  intros Hempty Ht. destruct target as [name path]. unfold crawl_target.
  set (u := urljoin (base_url config) path).
  destruct (crawls_category config name u s)
    as (new & ext1 & Hdata & Htrace & Hnew & _ & Hnw & Hts & Hsf & Hfs).
  rewrite Hempty in Hdata. simpl in Hdata.
  destruct (no_write_written ext1 Hnw) as [Hw1 Hp1].
  assert (Forall (fun r => has_category name r = true) new) as Hcat.
  { eapply Forall_impl; [exact Hnew|]. intros r [_ Hr%record_of_category].
    unfold has_category. by apply bool_decide_eq_true. }
  destruct (filter_all _ _ Hcat) as [Hall Hnone].
  rewrite save_category_data_eq, Hdata, Hall, Hnone, Hts, Ht.
  destruct new as [|r new]; simpl.
  - exists (ext1 ++ [Sleep (delay_between_requests config)]).
    rewrite Htrace, Hdata, Hts, Hsf, flat_map_app, written_paths_app, Hw1, Hp1.
    simpl. rewrite <- app_assoc, !app_nil_r, Nat.add_0_r.
    repeat split; try done.
    apply Forall_app. split; [by apply no_write_files_ok|by repeat constructor].
  - exists (ext1 ++ [Write (category_file_name data_dir name t) (r :: new);
                     Sleep (delay_between_requests config)]).
    rewrite Htrace, Hsf, flat_map_app, written_paths_app, Hw1, Hp1.
    rewrite lookup_insert_eq. simpl.
    rewrite <- !app_assoc, !app_nil_r. repeat split; try done.
    apply Forall_app. split; [by apply no_write_files_ok|].
    constructor; [|by repeat constructor].
    split; [done|]. exists name. split; [apply list_elem_of_here|].
    split; [done|]. eapply Forall_impl; [exact Hnew|].
    intros r' [_ Hr']. split; [by eapply record_of_category|done].
Qed.

Lemma crawl_targets_run targets total s t :
  scraped_data s = [] -> timestamp s = Some t ->
  exists ext,
    trace (snd (for_each targets (crawl_target config data_dir) (total, s)))
    = trace s ++ ext
    /\ scraped_data (snd (for_each targets (crawl_target config data_dir) (total, s)))
       = []
    /\ timestamp (snd (for_each targets (crawl_target config data_dir) (total, s)))
       = Some t
    /\ saved_files (snd (for_each targets (crawl_target config data_dir) (total, s)))
       = saved_files s ++ written_paths ext
    /\ fst (for_each targets (crawl_target config data_dir) (total, s))
       = (total + length (flat_map written ext))%nat
    /\ Forall (category_file_ok data_dir (map fst targets) t) ext.
Proof.
  revert total s. induction targets as [|target targets IH]; intros total s Hempty Ht.
  - exists []. simpl. by rewrite !app_nil_r, Nat.add_0_r.
  - simpl.
    destruct (crawl_target_run target total s t Hempty Ht)
      as (ext1 & Htr1 & Hd1 & Ht1 & Hs1 & Hn1 & Hf1).
    destruct (crawl_target config data_dir target (total, s)) as [total1 s1].
    simpl in *. subst total1.
    destruct (IH (total + length (flat_map written ext1))%nat s1 Hd1 Ht1)
      as (ext2 & Htr2 & Hd2 & Ht2 & Hs2 & Hn2 & Hf2).
    exists (ext1 ++ ext2).
    rewrite Htr2, Htr1, Hs2, Hs1, Hn2.
    rewrite flat_map_app, written_paths_app, length_app, !app_assoc.
    split; [done|]. split; [done|]. split; [done|]. split; [done|].
    split; [lia|].
    apply Forall_app. split.
    + eapply Forall_impl; [exact Hf1|]. intros e.
      apply category_file_ok_more. intros name ->%list_elem_of_singleton.
      apply list_elem_of_here.
    + eapply Forall_impl; [exact Hf2|]. intros e.
      apply category_file_ok_more. intros name ?. by apply list_elem_of_further.
Qed.

(** The run, from a crawler whose buffer is empty. *)
Lemma crawl_all_pages_run self :
  scraped_data self = [] ->
  let t := default (time_time (length (trace self))) (timestamp self) in
  exists ext,
    trace (snd (crawl_all_pages config data_dir self)) = trace self ++ ext
    /\ scraped_data (snd (crawl_all_pages config data_dir self)) = []
    /\ timestamp (snd (crawl_all_pages config data_dir self)) = Some t
    /\ saved_files (snd (crawl_all_pages config data_dir self))
       = saved_files self ++ written_paths ext
    /\ fst (crawl_all_pages config data_dir self) = length (flat_map written ext)
    /\ Forall (category_file_ok data_dir (map fst (target_pages config)) t) ext.
Proof.
  intros Hempty t. rewrite crawl_all_pages_eq.
  apply (crawl_targets_run (target_pages config) 0
           (set_timestamp t self) t); done.
Qed.

End Runs.

(** X8. A run that starts with an empty buffer ends with an empty buffer:
    [crawl_all_pages] returns the empty list, however many pages it has
    scraped, since each category is written and removed as soon as it is
    crawled. *)
Theorem run_leaves_buffer_empty `{World} (config : Config) (data_dir : pystr)
    (self : Crawler) :
  scraped_data self = [] ->
  scraped_data (snd (crawl_all_pages config data_dir self)) = [].
Proof.
  intros Hempty.
  destruct (crawl_all_pages_run config data_dir self Hempty) as (ext & _ & Hdata & _).
  exact Hdata.
Qed.

Lemma run_leaves_buffer_empty_witness :
  scraped_data (snd (crawl_all_pages site_config site_data_dir WebCrawler)) = [].
Proof. exact (run_leaves_buffer_empty site_config site_data_dir WebCrawler eq_refl). Defined.

(** X9. The number of pages that [crawl_all_pages] reports at the end is the
    number of records it has written to files during the run. *)
Theorem run_counts_written_records `{World} (config : Config) (data_dir : pystr)
    (self : Crawler) :
  scraped_data self = [] ->
  exists ext,
    trace (snd (crawl_all_pages config data_dir self)) = trace self ++ ext
    /\ fst (crawl_all_pages config data_dir self) = length (flat_map written ext).
Proof.
  intros Hempty.
  destruct (crawl_all_pages_run config data_dir self Hempty)
    as (ext & Htrace & _ & _ & _ & Htotal & _).
  by exists ext.
Qed.

Lemma run_counts_written_records_witness :
  fst (crawl_all_pages site_config site_data_dir WebCrawler)
  = length (flat_map written
              (trace (snd (crawl_all_pages site_config site_data_dir WebCrawler)))).
Proof.
  destruct (run_counts_written_records site_config site_data_dir WebCrawler eq_refl)
    as (ext & Htrace & Htotal).
  rewrite Htrace, Htotal. reflexivity.
Defined.

(** X10. In a run that starts with an empty buffer, [saved_files] grows by
    exactly the paths written, in order, and every file written is named
    after one of the configured categories and the timestamp of the run, is
    not empty, and holds records of that category only. *)
Theorem run_files_by_category `{World} (config : Config) (data_dir : pystr)
    (self : Crawler) :
  scraped_data self = [] ->
  exists ext,
    trace (snd (crawl_all_pages config data_dir self)) = trace self ++ ext
    /\ saved_files (snd (crawl_all_pages config data_dir self))
       = saved_files self ++ written_paths ext
    /\ Forall
         (category_file_ok data_dir (map fst (target_pages config))
            (default (time_time (length (trace self))) (timestamp self)))
         ext.
Proof.
  intros Hempty.
  destruct (crawl_all_pages_run config data_dir self Hempty)
    as (ext & Htrace & _ & _ & Hsaved & _ & Hfiles).
  by exists ext.
Qed.

Lemma run_files_by_category_witness :
  saved_files (snd (crawl_all_pages site_config site_data_dir WebCrawler))
  = written_paths (trace (snd (crawl_all_pages site_config site_data_dir WebCrawler))).
Proof.
  destruct (run_files_by_category site_config site_data_dir WebCrawler eq_refl)
    as (ext & Htrace & Hsaved & _).
  rewrite Htrace, Hsaved. reflexivity.
Defined.

Lemma files_need_pages `{World} data_dir names t ext :
  (forall n u, returned (_fetch_page (session_get n) u) = None) ->
  Forall (category_file_ok data_dir names t) ext ->
  existsb is_write ext = false.
Proof.
  intros Hfail. induction 1 as [|e ext He _ IH]; [done|]. simpl. rewrite IH.
  destruct e as [| |path data]; [done|done|]. exfalso.
  destruct He as (Hne & name & _ & _ & Hdata).
  destruct data as [|r data]; [done|].
  apply Forall_cons in Hdata as [[_ (n & html & Hhtml & _)] _].
  by rewrite Hfail in Hhtml.
Qed.

(** X11. When every request fails, a run keeps no record, writes no file,
    leaves [saved_files] as it was and reports 0 pages: it ends normally
    with nothing saved. *)
Theorem run_without_answers `{World} (config : Config) (data_dir : pystr)
    (self : Crawler) :
  (forall n u, returned (_fetch_page (session_get n) u) = None) ->
  scraped_data self = [] ->
  exists ext,
    trace (snd (crawl_all_pages config data_dir self)) = trace self ++ ext
    /\ existsb is_write ext = false
    /\ scraped_data (snd (crawl_all_pages config data_dir self)) = []
    /\ saved_files (snd (crawl_all_pages config data_dir self)) = saved_files self
    /\ fst (crawl_all_pages config data_dir self) = 0%nat.
Proof.
  intros Hfail Hempty.
  destruct (crawl_all_pages_run config data_dir self Hempty)
    as (ext & Htrace & Hdata & _ & Hsaved & Htotal & Hfiles).
  pose proof (files_need_pages _ _ _ _ Hfail Hfiles) as Hnw.
  destruct (no_write_written ext Hnw) as [Hw Hp].
  exists ext. rewrite Hsaved, Htotal, Hw, Hp, app_nil_r. done.
Qed.

Lemma run_without_answers_witness :
  saved_files (snd (@crawl_all_pages offline site_config site_data_dir WebCrawler))
  = []
  /\ fst (@crawl_all_pages offline site_config site_data_dir WebCrawler) = 0%nat.
Proof.
  destruct (@run_without_answers offline site_config site_data_dir WebCrawler)
    as (ext & _ & _ & _ & Hsaved & Htotal); [done|done|].
  by split.
Defined.

(** ** [save_data] and its caller *)

Lemma save_data_nothing_left `{World} data_dir self :
  scraped_data self = [] -> save_data data_dir self = (saved_files self, self).
Proof.
  intros Hempty. unfold save_data. rewrite Hempty. simpl.
  by destruct (saved_files self).
Qed.

(** X12. [scrape_website] of [main.py] returns the list of the category
    files written by the crawl, in the order they were written; its call of
    [save_data] writes nothing more, and the number of collected pages it
    prints is 0, whatever was scraped. *)
Theorem scrape_website_result `{World} (config : Config) (data_dir : pystr) :
  scrape_website config data_dir
  = (saved_files (snd (crawl_all_pages config data_dir WebCrawler)), 0%nat,
     snd (crawl_all_pages config data_dir WebCrawler))
  /\ saved_files (snd (crawl_all_pages config data_dir WebCrawler))
     = written_paths (trace (snd (crawl_all_pages config data_dir WebCrawler))).
Proof.
  destruct (crawl_all_pages_run config data_dir WebCrawler eq_refl)
    as (ext & Htrace & Hdata & _ & Hsaved & _).
  split.
  - unfold scrape_website.
    destruct (crawl_all_pages config data_dir WebCrawler) as [total final].
    simpl in *. by rewrite save_data_nothing_left, Hdata.
  - by rewrite Hsaved, Htrace.
Qed.

Lemma group_of_setdefault c c' item d :
  group_of c' (setdefault_append c item d)
  = if pystr_eqb c c' then group_of c d ++ [item] else group_of c' d.
Proof.
  unfold pystr_eqb. induction d as [|[k items] d IH]; simpl.
  - unfold pystr_eqb. by case_bool_decide.
  - unfold pystr_eqb in *. destruct (bool_decide (k = c)) eqn:Hkc; simpl.
    + apply bool_decide_eq_true in Hkc as ->. unfold pystr_eqb.
      by case_bool_decide.
    + apply bool_decide_eq_false in Hkc. unfold pystr_eqb.
      destruct (bool_decide (k = c')) eqn:Hkc'; [|done].
      apply bool_decide_eq_true in Hkc' as ->.
      by rewrite (bool_decide_eq_false_2 (c = c')) by congruence.
Qed.

Lemma keys_setdefault c item d :
  map fst (setdefault_append c item d)
  = if bool_decide (c ∈ map fst d) then map fst d else map fst d ++ [c].
Proof.
  induction d as [|[k items] d IH]; simpl; [done|].
  unfold pystr_eqb. destruct (bool_decide (k = c)) eqn:Hkc; simpl.
  - apply bool_decide_eq_true in Hkc as ->.
    by rewrite bool_decide_eq_true_2 by apply list_elem_of_here.
  - apply bool_decide_eq_false in Hkc. rewrite IH.
    destruct (bool_decide (c ∈ map fst d)) eqn:Hin.
    + apply bool_decide_eq_true in Hin.
      by rewrite bool_decide_eq_true_2 by (by apply list_elem_of_further).
    + apply bool_decide_eq_false in Hin.
      rewrite bool_decide_eq_false_2; [done|].
      intros [?|?]%elem_of_cons; congruence.
Qed.

Lemma grouped_setdefault c item d :
  grouped d -> grouped (setdefault_append c item d).
Proof.
  intros [Hnodup Hgroups]. split.
  - rewrite keys_setdefault. case_bool_decide; [done|].
    apply NoDup_app. split; [done|]. split; [|apply NoDup_singleton].
    by intros k Hk ->%list_elem_of_singleton.
  - intros k Hk. rewrite group_of_setdefault. unfold pystr_eqb.
    case_bool_decide as Hck; [by destruct (group_of c d)|].
    apply Hgroups. rewrite keys_setdefault in Hk.
    case_bool_decide; [done|].
    apply elem_of_app in Hk as [?|?%list_elem_of_singleton]; congruence.
Qed.

Lemma group_of_elem d k g :
  NoDup (map fst d) -> (k, g) ∈ d <-> k ∈ map fst d /\ g = group_of k d.
Proof.
  induction d as [|[k' g'] d IH]; simpl; intros Hnodup.
  - split; [by intros ?%elem_of_nil|by intros [?%elem_of_nil _]].
  - apply NoDup_cons in Hnodup as [Hk' Hnodup]. unfold pystr_eqb.
    rewrite !elem_of_cons, (IH Hnodup). case_bool_decide as Hkk.
    + subst k'. split.
      * intros [[= ->]|[? _]]; [by split; [left|]|done].
      * intros [_ ->]. by left.
    + split.
      * intros [[= ? ?]|[? ?]]; [congruence|by split; [right|]].
      * intros [[?|?] ?]; [congruence|by right].
Qed.

(** The dictionary after the loop over the remaining items. *)
Lemma data_by_category_from items d :
  grouped d ->
  let d' :=
    for_each items
      (fun item d => setdefault_append (category_or_unknown item) item d) d in
  grouped d'
  /\ (forall c, group_of c d' = group_of c d ++ List.filter (in_category c) items)
  /\ (forall c, c ∈ map fst d' <->
        c ∈ map fst d \/ exists item, item ∈ items /\ category_or_unknown item = c).
Proof.
  revert d. induction items as [|item items IH]; intros d Hd; simpl.
  - split; [done|]. split; [intros c; by rewrite app_nil_r|].
    intros c. split; [by left|]. by intros [?|(? & ?%elem_of_nil & _)].
  - destruct (IH _ (grouped_setdefault (category_or_unknown item) item d Hd))
      as (Hgrouped & Hgroup & Hkeys).
    split; [done|]. split.
    + intros c. rewrite Hgroup, group_of_setdefault.
      unfold in_category, pystr_eqb. case_bool_decide; simpl; [|done].
      subst c. by rewrite <- app_assoc.
    + intros c. rewrite Hkeys, keys_setdefault. split.
      * intros [Hc|(item' & ? & ?)].
        -- case_bool_decide; [by left|].
           apply elem_of_app in Hc as [?| ->%list_elem_of_singleton]; [by left|].
           right. exists item. split; [apply list_elem_of_here|done].
        -- right. exists item'. split; [by apply list_elem_of_further|done].
      * intros [Hc|(item' & [->|?]%elem_of_cons & Hitem)].
        -- left. case_bool_decide; [done|]. apply elem_of_app. by left.
        -- left. subst c. case_bool_decide; [done|].
           apply elem_of_app. right. apply list_elem_of_here.
        -- right. by exists item'.
Qed.

(** [data_by_category] splits the buffer by category: one entry for each
    category that occurs, holding the records of that category in their
    order. *)
Lemma data_by_category_spec items :
  NoDup (map fst (data_by_category items))
  /\ forall c g,
       (c, g) ∈ data_by_category items
       <-> g = List.filter (in_category c) items /\ g <> [].
Proof.
  destruct (data_by_category_from items []) as ([Hnodup Hne] & Hgroup & Hkeys).
  { split; [constructor|]. by intros k ?%elem_of_nil. }
  fold (data_by_category items) in *. split; [done|].
  intros c g. rewrite (group_of_elem _ _ _ Hnodup). split.
  - intros [Hc ->]. split; [apply Hgroup|by apply Hne].
  - intros [-> Hg]. split; [|symmetry; apply Hgroup]. apply Hkeys. right.
    destruct (List.filter (in_category c) items) as [|item rest] eqn:Hfilter; [done|].
    assert (item ∈ List.filter (in_category c) items) as [? Hitem]%elem_of_filter'
      by (rewrite Hfilter; apply list_elem_of_here).
    exists item. split; [done|]. by apply bool_decide_eq_true in Hitem.
Qed.

Lemma dump_groups `{World} data_dir groups saved self t :
  timestamp self = Some t ->
  exists s',
    for_each groups (dump_group data_dir) (saved, self)
    = (saved ++ map (fun g => category_file_name data_dir (fst g) t) groups, s')
    /\ trace s'
       = trace self
         ++ map (fun g => Write (category_file_name data_dir (fst g) t) (snd g)) groups
    /\ scraped_data s' = scraped_data self
    /\ timestamp s' = Some t
    /\ saved_files s' = saved_files self
    /\ visited_urls s' = visited_urls self.
Proof.
  revert saved self. induction groups as [|[c items] groups IH]; intros saved self Ht.
  - exists self. simpl. by rewrite !app_nil_r.
  - simpl. rewrite Ht. simpl.
    destruct (IH (saved ++ [category_file_name data_dir c t])
                (json_dump (category_file_name data_dir c t) items self) Ht)
      as (s' & Hloop & Htrace & Hdata & Hstamp & Hsaved & Hvisited).
    exists s'. rewrite Hloop, Htrace. simpl. by rewrite <- !app_assoc.
Qed.

(** X13. [save_data] with an empty buffer writes nothing and returns the
    files saved so far (none, if there is none). With records in the buffer
    it writes one file for each category that occurs, in the order of first
    occurrence, holding the records of that category in their order, adds
    the paths to [saved_files] and returns them; it leaves the buffer as it
    is, unlike [_save_category_data]. *)
Theorem save_data_by_category `{World} (data_dir : pystr) (self : Crawler) :
  (scraped_data self = [] -> save_data data_dir self = (saved_files self, self))
  /\ (scraped_data self <> [] ->
      let t := default (time_time (length (trace self))) (timestamp self) in
      let groups := data_by_category (scraped_data self) in
      let paths := map (fun g => category_file_name data_dir (fst g) t) groups in
      fst (save_data data_dir self) = paths
      /\ trace (snd (save_data data_dir self))
         = trace self
           ++ map (fun g => Write (category_file_name data_dir (fst g) t) (snd g))
                groups
      /\ scraped_data (snd (save_data data_dir self)) = scraped_data self
      /\ saved_files (snd (save_data data_dir self)) = saved_files self ++ paths
      /\ timestamp (snd (save_data data_dir self)) = Some t
      /\ NoDup (map fst groups)
      /\ forall c g,
           (c, g) ∈ groups
           <-> g = List.filter (in_category c) (scraped_data self) /\ g <> []).
Proof.
  split; [apply save_data_nothing_left|].
  intros Hdata t groups paths.
  destruct (dump_groups data_dir groups [] (set_timestamp t self) t eq_refl)
    as (s' & Hloop & Htrace & Hbuffer & Hstamp & Hsaved & _).
  assert (save_data data_dir self = (paths, extend_saved_files paths s')) as ->.
  { unfold save_data. destruct (scraped_data self) as [|r rest] eqn:Hbuf; [done|].
    rewrite andb_false_r. cbn [some_items negb]. fold groups.
    replace (match timestamp self with
             | Some _ => self
             | None => set_timestamp (time_time (length (trace self))) self
             end) with (set_timestamp t self).
    - by rewrite Hloop.
    - unfold t. destruct (timestamp self) as [t0|] eqn:Ht0; simpl; [|done].
      by apply set_timestamp_same. }
  simpl. rewrite Htrace, Hbuffer, Hsaved, Hstamp.
  destruct (data_by_category_spec (scraped_data self)) as [Hnodup Hgroups].
  split; [done|]. split; [done|]. split; [done|]. split; [done|].
  split; [done|]. split; [done|]. apply Hgroups.
Qed.

Lemma save_data_by_category_witness :
  fst (save_data site_data_dir
         (crawl_category site_config (py "results") (site_url "results.html")
            WebCrawler))
  = [py "data/raw/results_1720000004.json"].
Proof.
  destruct (save_data_by_category site_data_dir
              (crawl_category site_config (py "results") (site_url "results.html")
                 WebCrawler)) as [_ Hsome].
  destruct Hsome as [Hpaths _].
  - intros Heq. vm_compute in Heq. discriminate Heq.
  - rewrite Hpaths. vm_compute. reflexivity.
Defined.

(** ** The indexer reads what the crawler writes *)

Lemma remove_whitespace_length text :
  (length (remove_whitespace text) <= length text)%nat.
Proof. apply List.filter_length_le. Qed.

Lemma create_document_of_kept r :
  gate_ok r ->
  exists doc, _create_document_from_scraped r = Some doc /\ meta_url doc = url r.
Proof.
  intros [Hgate Hcount]. unfold _create_document_from_scraped.
  pose proof (remove_whitespace_length (content r)) as Hlen.
  assert (100 < length (content r))%nat as Hlong by lia.
  replace (nonempty (content r)) with true
    by (destruct (content r); [simpl in Hlong; lia|done]).
  replace (length (content r) <? 100)%nat with false
    by (symmetry; apply Nat.ltb_ge; lia).
  simpl. eauto.
Qed.

Lemma index_kept_records data :
  Forall gate_ok data -> map meta_url (index_scraped_data data) = map url data.
Proof.
  unfold index_scraped_data. induction 1 as [|r data Hr _ IH]; [done|].
  destruct (create_document_of_kept r Hr) as (doc & Hdoc & Hurl).
  simpl. rewrite Hdoc. simpl. rewrite Hurl. f_equal. exact IH.
Qed.

(** X14. The indexer drops no record of a file the crawler has written:
    every record the crawler keeps has more than 100 characters of content,
    so [_create_document_from_scraped] makes a document of it, and
    [index_scraped_data] on the records of a file gives as many documents,
    for the same URLs in the same order. *)
Theorem indexer_takes_every_record `{World} (config : Config) (data_dir : pystr)
    (self : Crawler) (path : pystr) (data : list PageRecord) :
  Forall gate_ok (emitted self) ->
  Write path data ∈ trace (snd (crawl_all_pages config data_dir self)) ->
  length (index_scraped_data data) = length data
  /\ map meta_url (index_scraped_data data) = map url data.
Proof.
  intros Hself Hwrite.
  assert (Forall gate_ok (emitted (snd (crawl_all_pages config data_dir self))))
    as Hall.
  { eapply (rtc_preserves config data_dir (fun s => Forall gate_ok (emitted s)));
      [apply step_gate|apply crawl_all_pages_steps|done]. }
  assert (Forall gate_ok data) as Hdata.
  { apply Forall_forall. intros r Hr.
    eapply Forall_forall in Hall; [exact Hall|].
    unfold emitted. apply elem_of_app. left.
    apply elem_of_flat_map. by exists (Write path data). }
  pose proof (index_kept_records data Hdata) as Hurls.
  split; [|done].
  by rewrite <- (length_map meta_url), Hurls, length_map.
Qed.

Lemma indexer_takes_every_record_witness :
  length (index_scraped_data
            [set_category (py "idea")
               (extract_content (py "<title>idea</title>") (site_url "idea.html"))])
  = 1%nat.
Proof.
  refine (proj1 (indexer_takes_every_record site_config site_data_dir WebCrawler
                   (py "data/raw/idea_1720000000.json") _ _ _)).
  - constructor.
  - vm_compute. apply list_elem_of_further, list_elem_of_here.
Defined.

(** ** A date read from the text *)

Lemma match_date_here_shape `{World} text y m d :
  match_date_here text = Some (y, m, d) ->
  length y = 4%nat /\ length m = 2%nat /\ length d = 2%nat
  /\ forallb isdecimal (y ++ m ++ d) = true
  /\ exists post, text = y ++ [NEN] ++ m ++ [GATSU] ++ d ++ [NICHI] ++ post.
Proof.
  unfold match_date_here.
  destruct text as [|y1 [|y2 [|y3 [|y4 [|n [|m1 [|m2 [|g [|d1 [|d2 [|h post]]]]]]]]]]];
    try done.
  destruct (_ && _) eqn:Htest; [|done]. intros [= <- <- <-].
  apply andb_prop in Htest as [Htest Hh]. apply andb_prop in Htest as [Htest Hg].
  apply andb_prop in Htest as [Hdigits Hn].
  apply N.eqb_eq in Hh as ->. apply N.eqb_eq in Hg as ->. apply N.eqb_eq in Hn as ->.
  repeat split; try done. by exists post.
Qed.

Lemma search_date_shape `{World} text y m d :
  search_date text = Some (y, m, d) ->
  length y = 4%nat /\ length m = 2%nat /\ length d = 2%nat
  /\ forallb isdecimal (y ++ m ++ d) = true
  /\ exists pre post,
       text = pre ++ y ++ [NEN] ++ m ++ [GATSU] ++ d ++ [NICHI] ++ post.
Proof.
  induction text as [|c text IH].
  - simpl. by destruct (match_date_here []).
  - cbn [search_date].
    destruct (match_date_here (c :: text)) as [[[y' m'] d']|] eqn:Hhere.
    + intros [= -> -> ->].
      apply match_date_here_shape in Hhere as (? & ? & ? & ? & post & ->).
      repeat split; try done. by exists [], post.
    + intros (? & ? & ? & ? & pre & post & ->)%IH.
      repeat split; try done. by exists (c :: pre), post.
Qed.

(** X15. When the [time] tag of the article-title region has no [datetime]
    attribute and its text holds a date written 年, 月, 日, the publish date
    is that date as ten characters: four digits, a hyphen, two digits, a
    hyphen, two digits, the digits being those of the text. *)
Theorem publish_date_from_text_shape `{World} (soup time_tag : node)
    (y m d : pystr) :
  select_one article_title_time soup = Some time_tag ->
  truthy (node_get (py "datetime") time_tag) = false ->
  search_date (get_text [] true time_tag) = Some (y, m, d) ->
  _extract_publish_date soup = Some (y ++ [HYPHEN] ++ m ++ [HYPHEN] ++ d)
  /\ length (y ++ [HYPHEN] ++ m ++ [HYPHEN] ++ d) = 10%nat
  /\ length y = 4%nat /\ length m = 2%nat /\ length d = 2%nat
  /\ forallb isdecimal (y ++ m ++ d) = true
  /\ exists pre post,
       get_text [] true time_tag
       = pre ++ y ++ [NEN] ++ m ++ [GATSU] ++ d ++ [NICHI] ++ post.
Proof.
  intros Htag Hattr Hdate.
  pose proof (search_date_shape _ _ _ _ Hdate) as (Hy & Hm & Hd & Hdigits & Htext).
  split.
  - unfold _extract_publish_date. rewrite Htag, Hattr, Hdate.
    destruct Htext as (pre & post & ->).
    replace (nonempty _) with true; [done|].
    destruct pre; [|done]. by destruct y.
  - rewrite !length_app, Hy, Hm, Hd. simpl. repeat split; done.
Qed.

Lemma publish_date_from_text_shape_witness :
  _extract_publish_date (article_page [] date_text) = Some (py "2014-06-05").
Proof.
  refine (proj1 (publish_date_from_text_shape (article_page [] date_text)
                   (Tag (py "time") [] [Text date_text])
                   (py "2014") (py "06") (py "05") _ _ _)).
  - vm_compute. reflexivity.
  - reflexivity.
  - vm_compute. reflexivity.
Defined.

(** ** Requests and the visited set *)

Section Fresh.
Context `{World} (config : Config).
Implicit Types (self s : Crawler) (u v c : pystr).

#[local] Instance fresh_requests_refl : Reflexive fresh_requests.
Proof.
  intros s. exists []. rewrite app_nil_r. simpl.
  split; [done|]. split; [constructor|]. split; [by intros v ?%elem_of_nil|].
  intros v. split; [by left|]. by intros [?|?%elem_of_nil].
Qed.

#[local] Instance fresh_requests_trans : Transitive fresh_requests.
Proof.
  intros s1 s2 s3 (ext1 & Ht1 & Hn1 & Hf1 & Hv1) (ext2 & Ht2 & Hn2 & Hf2 & Hv2).
  exists (ext1 ++ ext2). rewrite Ht2, Ht1, app_assoc, fetched_app.
  split; [done|]. split; [|split].
  - apply NoDup_app. split; [done|]. split; [|done].
    intros v Hv Hv'. apply (Hf2 v Hv'), Hv1. by right.
  - intros v [Hv|Hv]%elem_of_app; [by apply Hf1|].
    intros Hvisited. apply (Hf2 v Hv), Hv1. by left.
  - intros v. rewrite Hv2, Hv1, elem_of_app. tauto.
Qed.

Lemma fresh_requests_sleep s : fresh_requests s (sleep config s).
Proof.
  exists [Sleep (delay_between_requests config)]. simpl.
  split; [done|]. split; [constructor|]. split; [by intros v ?%elem_of_nil|].
  intros v. split; [by left|]. by intros [?|?%elem_of_nil].
Qed.

Lemma fresh_requests_first u recs s :
  u ∉ visited_urls s ->
  fresh_requests s
    (set_scraped_data (scraped_data s ++ recs) (log (Fetch u) (add_visited u s))).
Proof.
  intros Hu. exists [Fetch u]. simpl.
  split; [done|]. split; [apply NoDup_singleton|]. split.
  - by intros v ->%list_elem_of_singleton.
  - intros v. rewrite elem_of_union, elem_of_singleton, list_elem_of_singleton.
    tauto.
Qed.

Lemma fresh_requests_single_page u c s :
  fresh_requests s (_crawl_single_page u c s).
Proof.
  rewrite crawl_single_page_eq. case_bool_decide; [reflexivity|].
  by apply fresh_requests_first.
Qed.

Lemma fresh_requests_below b u c d s :
  fresh_requests s (crawl_below config b u c d s).
Proof.
  revert u d s. induction b as [|b IH]; intros u d s;
    rewrite crawl_below_eq; (case_bool_decide; [reflexivity|]); cbv zeta.
  - by destruct (truthy _); apply fresh_requests_first.
  - destruct (truthy _); [|by apply fresh_requests_first].
    etrans; [by apply fresh_requests_first|].
    apply (for_each_rel fresh_requests). intros link s'.
    destruct (_should_follow_link _ _ _); [|reflexivity].
    etrans; [apply IH|apply fresh_requests_sleep].
Qed.

End Fresh.

(** X16. The crawl of a single page and the fallback strategy never request
    a visited URL and never request a URL twice, and the URLs they mark
    visited are exactly those they request (the strategies for results,
    kaiken and column do request pages twice). *)
Theorem page_crawls_request_once `{World} (config : Config) (u c : pystr)
    (max_depth d : nat) (self : Crawler) :
  fresh_requests self (_crawl_single_page u c self)
  /\ fresh_requests self (_crawl_page_and_subpages config u c max_depth d self).
Proof.
  split; [apply fresh_requests_single_page|].
  unfold _crawl_page_and_subpages.
  destruct (max_depth <? d)%nat; [apply fresh_requests_refl|].
  apply fresh_requests_below.
Qed.

Lemma elem_of_fetched u tr : u ∈ fetched tr <-> Fetch u ∈ tr.
Proof.
  unfold fetched. rewrite elem_of_flat_map. split.
  - intros (e & He & Hu). destruct e; try by apply elem_of_nil in Hu.
    by apply list_elem_of_singleton in Hu as ->.
  - intros Hu. exists (Fetch u). split; [done|apply list_elem_of_here].
Qed.

Lemma step_visited_fetched `{World} config data_dir s s' :
  step config data_dir s s' ->
  (forall v, v ∈ visited_urls s <-> v ∈ fetched (trace s)) ->
  (forall v, v ∈ visited_urls s' <-> v ∈ fetched (trace s')).
Proof.
  intros Hstep Hs v. destruct Hstep as [u recs s _ _ _|u s Hu|s|t s _|c t s _]; simpl.
  - rewrite fetched_app, elem_of_app, elem_of_union, elem_of_singleton, Hs. simpl.
    rewrite list_elem_of_singleton. tauto.
  - rewrite fetched_app, elem_of_app, Hs. simpl. rewrite list_elem_of_singleton.
    split; [by left|]. intros [?| ->]; [done|]. by apply Hs.
  - rewrite fetched_app, elem_of_app, Hs. simpl. rewrite elem_of_nil. tauto.
  - apply Hs.
  - rewrite fetched_app, elem_of_app, Hs. simpl. rewrite elem_of_nil. tauto.
Qed.

(** X17. From a crawler that has marked visited exactly the URLs it has
    requested (a new one has done neither), a strategy and a whole run keep
    it so: a URL is in [visited_urls] if and only if a request for it was
    made, successful or not. *)
Theorem visited_is_requested `{World} (config : Config) (data_dir page_name u : pystr)
    (self : Crawler) :
  (forall v, v ∈ visited_urls self <-> Fetch v ∈ trace self) ->
  (forall v, v ∈ visited_urls (crawl_category config page_name u self)
             <-> Fetch v ∈ trace (crawl_category config page_name u self))
  /\ (forall v, v ∈ visited_urls (snd (crawl_all_pages config data_dir self))
                <-> Fetch v ∈ trace (snd (crawl_all_pages config data_dir self))).
Proof.
  intros Hself.
  assert (forall v, v ∈ visited_urls self <-> v ∈ fetched (trace self)) as Hself'
    by (intros v; by rewrite elem_of_fetched).
  split; intros v; rewrite <- elem_of_fetched; revert v.
  - eapply (rtc_preserves config data_dir
              (fun s => forall v, v ∈ visited_urls s <-> v ∈ fetched (trace s)));
      [apply step_visited_fetched|apply crawl_category_steps|done].
  - eapply (rtc_preserves config data_dir
              (fun s => forall v, v ∈ visited_urls s <-> v ∈ fetched (trace s)));
      [apply step_visited_fetched|apply crawl_all_pages_steps|done].
Qed.

Lemma visited_is_requested_witness :
  site_url "posture.html"
  ∈ visited_urls (snd (crawl_all_pages site_config site_data_dir WebCrawler)).
Proof.
  apply (proj2 (visited_is_requested site_config site_data_dir (py "idea")
                  (site_url "idea.html") WebCrawler
                  (fun v => conj (fun Hv => False_ind _ (not_elem_of_empty v Hv))
                                 (fun Hv => False_ind _ (proj1 (elem_of_nil _) Hv))))).
  vm_compute. do 3 apply list_elem_of_further. apply list_elem_of_here.
Defined.

Lemma crawl_links_grows `{World} config links c s :
  visited_urls s ⊆ visited_urls (crawl_links config links c s).
Proof. apply (rtc_visited config []), crawl_links_steps. Qed.

(** X18. After the loop over result pages or detail pages every link of the
    list is visited, and after the strategy of a category its entry URL is
    visited, whether or not the requests succeeded: a page that failed is
    not tried again in the run. *)
Theorem links_end_up_visited `{World} (config : Config) (links : list pystr)
    (page_name u c : pystr) (self : Crawler) :
  (forall l, l ∈ links -> l ∈ visited_urls (crawl_links config links c self))
  /\ u ∈ visited_urls (crawl_category config page_name u self).
Proof.
  split.
  - revert self. induction links as [|link links IH]; intros self l Hl.
    { by apply elem_of_nil in Hl. }
    change (crawl_links config (link :: links) c self)
      with (crawl_links config links c
              (if bool_decide (link ∈ visited_urls self) then self
               else sleep config (_crawl_single_page link c self))).
    apply elem_of_cons in Hl as [->|Hl]; [|by apply IH].
    apply crawl_links_grows. case_bool_decide; [done|].
    simpl. apply crawl_single_page_visited.
  - unfold crawl_category, _crawl_page_and_subpages.
    change (2 <? 0)%nat with false. cbv iota.
    destruct (_ || _); [apply crawl_single_page_visited|].
    destruct (pystr_eqb _ _).
    { eapply (rtc_visited config []); [apply crawl_results_pages_tail|].
      simpl. apply crawl_single_page_visited. }
    destruct (pystr_eqb _ _).
    { eapply (rtc_visited config []); [apply crawl_kaiken_pages_tail|].
      simpl. apply crawl_single_page_visited. }
    destruct (pystr_eqb _ _).
    { eapply (rtc_visited config []); [apply crawl_column_pages_tail|].
      simpl. apply crawl_single_page_visited. }
    rewrite crawl_below_eq. case_bool_decide; [done|]. cbv zeta.
    assert (u ∈ visited_urls
              (set_scraped_data
                 (scraped_data self
                  ++ page_records u page_name (Some 0%nat)
                       (returned (_fetch_page (session_get (length (trace self))) u)))
                 (log (Fetch u) (add_visited u self)))) as Hfirst
      by (simpl; apply elem_of_union; left; by apply elem_of_singleton).
    destruct (truthy _); [|done].
    eapply (rtc_visited config []); [|exact Hfirst].
    apply (for_each_rel (rtc _)). intros link s.
    destruct (_should_follow_link _ _ _); [|done].
    eapply rtc_r; [apply crawl_below_steps|apply step_sleep].
Qed.

Lemma links_end_up_visited_witness :
  site_url "results_japan7.html"
  ∈ visited_urls
      (crawl_links site_config [site_url "results_japan7.html"] (py "results")
         WebCrawler).
Proof.
  apply (proj1 (links_end_up_visited site_config [site_url "results_japan7.html"]
                  (py "results") (site_url "results.html") (py "results")
                  WebCrawler)).
  apply list_elem_of_here.
Defined.

(** ** The files of a run *)

Lemma replay_app ext1 ext2 files :
  replay (ext1 ++ ext2) files = replay ext2 (replay ext1 files).
Proof. apply foldl_app. Qed.

Lemma replay_no_write ext files :
  existsb is_write ext = false -> replay ext files = files.
Proof.
  revert files. induction ext as [|e ext IH]; intros files; [done|]. simpl.
  intros [He Hext]%orb_false_elim. destruct e; try done; by apply IH.
Qed.

Lemma replay_other ext files path :
  path ∉ written_paths ext -> replay ext files !! path = files !! path.
Proof.
  revert files. induction ext as [|e ext IH]; intros files Hpath; [done|].
  destruct e as [u|d|p data]; simpl; try (apply IH; exact Hpath).
  change (written_paths (Write p data :: ext)) with (p :: written_paths ext) in Hpath.
  apply not_elem_of_cons in Hpath as [Hne Hpath].
  rewrite (IH _ Hpath). by apply lookup_insert_ne.
Qed.

Lemma replay_written ext files path data :
  NoDup (written_paths ext) -> Write path data ∈ ext ->
  replay ext files !! path = Some data.
Proof.
  revert files. induction ext as [|e ext IH]; intros files Hnodup Hin.
  { by apply elem_of_nil in Hin. }
  apply elem_of_cons in Hin as [<-|Hin].
  - change (written_paths (Write path data :: ext))
      with (path :: written_paths ext) in Hnodup.
    apply NoDup_cons in Hnodup as [Hpath _]. simpl.
    rewrite (replay_other _ _ _ Hpath). apply lookup_insert_eq.
  - destruct e as [u|d|p data']; simpl; try (by apply IH).
    change (written_paths (Write p data' :: ext))
      with (p :: written_paths ext) in Hnodup.
    apply NoDup_cons in Hnodup as [_ Hnodup]. by apply IH.
Qed.

Section Files.
Context `{World} (config : Config) (data_dir : pystr).
Implicit Types (self s : Crawler) (t : Z).

(** One category writes at most one file, the one of its name. *)
Lemma crawl_target_files target total s t :
  scraped_data s = [] -> timestamp s = Some t ->
  exists ext,
    trace (snd (crawl_target config data_dir target (total, s))) = trace s ++ ext
    /\ written_paths ext `sublist_of` [category_file_name data_dir (fst target) t]
    /\ fs (snd (crawl_target config data_dir target (total, s)))
       = replay ext (fs s).
Proof.
  intros Hempty Ht. destruct target as [name path]. unfold crawl_target.
  set (u := urljoin (base_url config) path).
  destruct (crawls_category config name u s)
    as (new & ext1 & Hdata & Htrace & Hnew & _ & Hnw & Hts & Hsf & Hfs).
  rewrite Hempty in Hdata. simpl in Hdata.
  destruct (no_write_written ext1 Hnw) as [_ Hp1].
  rewrite save_category_data_eq, Hdata, Hts, Ht.
  destruct (List.filter _ new) as [|r kept]; simpl.
  - exists (ext1 ++ [Sleep (delay_between_requests config)]).
    rewrite Htrace, Hfs, written_paths_app, Hp1, replay_app, <- app_assoc.
    rewrite (replay_no_write ext1) by done.
    split; [done|]. split; [apply sublist_nil_l|done].
  - exists (ext1 ++ [Write (category_file_name data_dir name t) (r :: kept);
                     Sleep (delay_between_requests config)]).
    rewrite Htrace, Hfs, written_paths_app, Hp1, replay_app, <- !app_assoc.
    rewrite (replay_no_write ext1) by done.
    split; [done|]. split; [done|done].
Qed.

Lemma crawl_targets_files targets total s t :
  scraped_data s = [] -> timestamp s = Some t ->
  exists ext,
    trace (snd (for_each targets (crawl_target config data_dir) (total, s)))
    = trace s ++ ext
    /\ written_paths ext
       `sublist_of` map (fun target => category_file_name data_dir (fst target) t)
                      targets
    /\ fs (snd (for_each targets (crawl_target config data_dir) (total, s)))
       = replay ext (fs s).
Proof.
  revert total s. induction targets as [|target targets IH]; intros total s Hempty Ht.
  - exists []. simpl. by rewrite app_nil_r.
  - simpl.
    destruct (crawl_target_run config data_dir target total s t Hempty Ht)
      as (ext0 & _ & Hd1 & Ht1 & _).
    destruct (crawl_target_files target total s t Hempty Ht)
      as (ext1 & Htr1 & Hsub1 & Hfs1).
    destruct (crawl_target config data_dir target (total, s)) as [total1 s1].
    simpl in *.
    destruct (IH total1 s1 Hd1 Ht1) as (ext2 & Htr2 & Hsub2 & Hfs2).
    exists (ext1 ++ ext2).
    rewrite Htr2, Htr1, Hfs2, Hfs1, written_paths_app, replay_app, app_assoc.
    split; [done|]. split; [|done].
    exact (sublist_app _ [_] _ _ Hsub1 Hsub2).
Qed.

End Files.

(** X19. A run that starts with an empty buffer writes at most one file for
    each category. When the categories give different file names, no file
    of the run is written twice: at the end every file written holds the
    records written to it, and every other file is as it was before the
    run. *)
Theorem run_overwrites_no_file `{World} (config : Config) (data_dir : pystr)
    (self : Crawler) :
  scraped_data self = [] ->
  NoDup (map (fun target =>
                category_file_name data_dir (fst target)
                  (default (time_time (length (trace self))) (timestamp self)))
           (target_pages config)) ->
  exists ext,
    trace (snd (crawl_all_pages config data_dir self)) = trace self ++ ext
    /\ (length (written_paths ext) <= length (target_pages config))%nat
    /\ NoDup (written_paths ext)
    /\ (forall path data,
          Write path data ∈ ext ->
          fs (snd (crawl_all_pages config data_dir self)) !! path = Some data)
    /\ (forall path,
          path ∉ written_paths ext ->
          fs (snd (crawl_all_pages config data_dir self)) !! path = fs self !! path).
Proof.
  intros Hempty Hnames. rewrite crawl_all_pages_eq.
  set (t := default (time_time (length (trace self))) (timestamp self)) in *.
  destruct (crawl_targets_files config data_dir (target_pages config) 0
              (set_timestamp t self) t Hempty eq_refl)
    as (ext & Htrace & Hsub & Hfs).
  exists ext. rewrite Hfs. simpl in *.
  assert (NoDup (written_paths ext)) as Hnodup by (by eapply sublist_NoDup).
  split; [done|]. split; [|split; [done|split]].
  - apply sublist_length in Hsub. by rewrite length_map in Hsub.
  - intros path data. by apply replay_written.
  - intros path. apply replay_other.
Qed.

Lemma run_overwrites_no_file_witness :
  fs (snd (crawl_all_pages site_config site_data_dir WebCrawler))
    !! py "data/raw/idea_1720000000.json"
  = Some [set_category (py "idea")
            (extract_content (py "<title>idea</title>") (site_url "idea.html"))].
Proof.
  destruct (run_overwrites_no_file site_config site_data_dir WebCrawler eq_refl)
    as (ext & Htrace & _ & _ & Hwritten & _).
  - apply (bool_decide_unpack _). vm_compute. exact I.
  - apply Hwritten.
    assert (exists pre post,
              trace (snd (crawl_all_pages site_config site_data_dir WebCrawler))
              = pre ++ Write (py "data/raw/idea_1720000000.json")
                         [set_category (py "idea")
                            (extract_content (py "<title>idea</title>")
                               (site_url "idea.html"))] :: post) as (pre & post & Heq).
    { exists [Fetch (site_url "idea.html")]. eexists. vm_compute. reflexivity. }
    rewrite Htrace in Heq. simpl in Heq. rewrite Heq.
    apply elem_of_app. right. apply list_elem_of_here.
Defined.
